(** * Heat-stress awareness dashboard: the rule-based risk calculator

    A shallow embedding of [app.py]: the point-scoring function
    [calculate_risk], the per-factor breakdown table of the single
    assessment page, and the batch-analysis page that runs the calculator
    over an uploaded table.

    Python values are dynamically typed, so the embedding carries a small
    value type and an exception monad: comparing a string with a number
    raises [TypeError], indexing a dict with an absent key raises
    [KeyError].  Numbers are integers, as the input widgets produce them
    (integer bounds and steps); a missing table cell is [PNaN].  Calls
    into the display library that the page only passes a value to are
    parameters of the embedding. *)

From stdpp Require Import base numbers list strings gmap pretty.

Local Open Scope Z_scope.

(** ** Python values and exceptions *)

Inductive pyval : Type :=
  | PInt (z : Z)
  | PStr (s : string)
  | PNaN.

#[global] Instance pyval_eq_dec : EqDecision pyval.
Proof. solve_decision. Defined.

Inductive exn : Type :=
  | KeyError (key : pyval)
  | TypeError
  | OverflowError.

Inductive result (A : Type) : Type :=
  | Ok (a : A)
  | Raise (e : exn).

Arguments Ok {A} a.
Arguments Raise {A} e.

#[global] Instance result_ret : MRet result := fun _ a => Ok a.

#[global] Instance result_bind : MBind result := fun _ _ f m =>
  match m with
  | Ok a => f a
  | Raise e => Raise e
  end.

(** [v >= k] for an integer literal [k]: numbers compare, NaN compares
    false with everything, a string against a number is a [TypeError]. *)
Definition py_ge (v : pyval) (k : Z) : result bool :=
  match v with
  | PInt z => Ok (z >=? k)
  | PNaN => Ok false
  | PStr _ => Raise TypeError
  end.

(** [d[key]] for a dict with string keys. *)
Definition py_getitem (d : gmap string Z) (key : pyval) : result Z :=
  match key with
  | PStr s =>
      match d !! s with
      | Some v => Ok v
      | None => Raise (KeyError key)
      end
  | _ => Raise (KeyError key)
  end.

(** ** The risk calculator *)

(** The three level labels ["Low"], ["Moderate"], ["High"]. *)
Inductive risk_level : Type := Low | Moderate | High.

#[global] Instance risk_level_eq_dec : EqDecision risk_level.
Proof. solve_decision. Defined.

Definition level_label (l : risk_level) : string :=
  match l with
  | Low => "Low"
  | Moderate => "Moderate"
  | High => "High"
  end.

(** The ordering Low < Moderate < High. *)
Definition level_rank (l : risk_level) : nat :=
  match l with
  | Low => 0
  | Moderate => 1
  | High => 2
  end.

Definition level_le (l1 l2 : risk_level) : Prop :=
  (level_rank l1 <= level_rank l2)%nat.

Definition activity_scores : gmap string Z :=
  {[ "Light" := 1; "Moderate" := 2; "Heavy" := 3 ]}.

(** [if temp >= 40: risk_score += 3  elif temp >= 35: risk_score += 2] *)
Definition score_temperature (temp : pyval) (risk_score : Z) : result Z :=
  c ← py_ge temp 40;
  if c : bool then Ok (risk_score + 3)
  else
    c ← py_ge temp 35;
    if c : bool then Ok (risk_score + 2) else Ok risk_score.

(** [if humidity >= 70: risk_score += 2] *)
Definition score_humidity (humidity : pyval) (risk_score : Z) : result Z :=
  c ← py_ge humidity 70;
  if c : bool then Ok (risk_score + 2) else Ok risk_score.

(** [if hours >= 6: risk_score += 2] *)
Definition score_hours (hours : pyval) (risk_score : Z) : result Z :=
  c ← py_ge hours 6;
  if c : bool then Ok (risk_score + 2) else Ok risk_score.

(** [risk_score += activity_scores[activity]] *)
Definition score_activity (activity : pyval) (risk_score : Z) : result Z :=
  points ← py_getitem activity_scores activity;
  Ok (risk_score + points).

(** The level chosen from the final score:
    [>= 8] High, [elif >= 5] Moderate, [else] Low. *)
Definition level_of_score (risk_score : Z) : risk_level :=
  if risk_score >=? 8 then High
  else if risk_score >=? 5 then Moderate
  else Low.

Definition calculate_risk (temp humidity hours activity : pyval)
  : result (risk_level * Z) :=
  let risk_score := 0 in
  risk_score ← score_temperature temp risk_score;
  risk_score ← score_humidity humidity risk_score;
  risk_score ← score_hours hours risk_score;
  risk_score ← score_activity activity risk_score;
  let risk_level := level_of_score risk_score in
  Ok (risk_level, risk_score).

(** ** The breakdown table of the single-assessment page

    The ['Contribution'] column of [breakdown_data]: one expression per
    factor, written out again next to the calculator. *)

Definition temperature_contribution (temperature : Z) : Z :=
  if temperature >=? 40 then 3 else if temperature >=? 35 then 2 else 0.

Definition humidity_contribution (humidity : Z) : Z :=
  if humidity >=? 70 then 2 else 0.

Definition duration_contribution (work_duration : Z) : Z :=
  if work_duration >=? 6 then 2 else 0.

Definition activity_contribution (activity_level : pyval) : result Z :=
  py_getitem activity_scores activity_level.

(** The bounds the input widgets declare ([min_value], [max_value]). *)
Definition temperature_in_range (t : Z) : Prop := 25 <= t <= 50.
Definition humidity_in_range (h : Z) : Prop := 30 <= h <= 90.
Definition duration_in_range (d : Z) : Prop := 1 <= d <= 10.

(** The options of the activity select box. *)
Definition activity_options : list string := ["Light"; "Moderate"; "Heavy"].

(** ** Tables

    A pandas [DataFrame]: the column labels (made unique by [read_csv]),
    the row labels (the index) and the rows in position order.
    [read_csv] gives the default index 0, 1, 2, ... unless the data lines
    of the file hold one field more than its header: then the first field
    of each line is the label of its row.  Row labels are integers or
    text. *)

Record DataFrame : Type := mkDataFrame {
  columns : list string;
  index : list pyval;
  rows : list (list pyval)
}.

(** [RangeIndex(n)]: the labels 0 to n-1. *)
Definition range_index (n : nat) : list pyval :=
  (λ i, PInt (Z.of_nat i)) <$> seq 0 n.

(** The value a series holds under a row label.  A series is the list of
    its (label, value) pairs in position order. *)
Fixpoint series_get (series : list (pyval * pyval)) (label : pyval)
  : option pyval :=
  match series with
  | [] => None
  | (l, v) :: series' =>
      if decide (l = label) then Some v else series_get series' label
  end.

(** Position of a label among the columns. *)
Fixpoint column_index (cols : list string) (c : string) : option nat :=
  match cols with
  | [] => None
  | c' :: cols' => if decide (c' = c) then Some 0%nat else S <$> column_index cols' c
  end.

(** [row[c]] on a row yielded by [iterrows]: the cell under the label,
    [KeyError] when the row has no such label.  A row has one cell per
    column. *)
Definition row_getitem (cols : list string) (row : list pyval) (c : string)
  : result pyval :=
  match column_index cols c ≫= (row !!.) with
  | Some v => Ok v
  | None => Raise (KeyError (PStr c))
  end.

(** Value stored under a key of a dict literal. *)
Fixpoint record_get (r : list (string * pyval)) (c : string) : option pyval :=
  match r with
  | [] => None
  | (k, v) :: r' => if decide (k = c) then Some v else record_get r' c
  end.

(** [pd.DataFrame(records)] for a list of dicts sharing their keys: the
    columns are the keys, and there are none when the list is empty; the
    index is the default one. *)
Definition DataFrame_of_records (records : list (list (string * pyval)))
  : DataFrame :=
  let cols := match records with [] => [] | r :: _ => r.*1 end in
  {| columns := cols;
     index := range_index (length records);
     rows := (λ r, (λ c, default PNaN (record_get r c)) <$> cols) <$> records |}.

(** [df[c]]: the column as a series under the row labels of the frame, or
    [KeyError] when there is no such column. *)
Definition df_getitem (df : DataFrame) (c : string)
  : result (list (pyval * pyval)) :=
  match column_index (columns df) c with
  | Some j => Ok (zip (index df) ((λ r, default PNaN (r !! j)) <$> rows df))
  | None => Raise (KeyError (PStr c))
  end.

(** [df[c] = series]: the series is aligned on the row labels of the
    frame, so the row labelled [l] receives the value the series holds
    under [l], and NaN when the series has no such label; the position of
    the row plays no part.  An existing column is overwritten in place, a
    new one is added after the last column.  (pandas shows the integers
    of a column that also holds NaN as floats of the same value; numbers
    stay integers here.) *)
Definition df_setitem (df : DataFrame) (c : string)
    (series : list (pyval * pyval)) : DataFrame :=
  let cell (i : nat) := default PNaN (index df !! i ≫= series_get series) in
  match column_index (columns df) c with
  | Some j =>
      {| columns := columns df;
         index := index df;
         rows := imap (λ i r, <[j := cell i]> r) (rows df) |}
  | None =>
      {| columns := columns df ++ [c];
         index := index df;
         rows := imap (λ i r, r ++ [cell i]) (rows df) |}
  end.

(** ** Batch analysis *)

Definition required_columns : list string :=
  ["temperature"; "humidity"; "duration"; "activity"].

Definition batch_error_message : string :=
  "CSV must contain: temperature, humidity, duration, activity columns".

(** What the page shows for an uploaded table: the table with its result
    columns, once the call [st.dataframe(batch_df)] has returned, or the
    message of [st.error]. *)
Inductive batch_page : Type :=
  | st_dataframe (batch_df : DataFrame)
  | st_error (msg : string).

(** The call in the body of the [iterrows] loop: the four cells of the
    row are read in argument order and handed to the calculator. *)
Definition row_risk (cols : list string) (row : list pyval)
  : result (risk_level * Z) :=
  temperature ← row_getitem cols row "temperature";
  humidity ← row_getitem cols row "humidity";
  duration ← row_getitem cols row "duration";
  activity ← row_getitem cols row "activity";
  calculate_risk temperature humidity duration activity.

(** The dict the loop appends to [results] for a row. *)
Definition result_record (r : risk_level * Z) : list (string * pyval) :=
  [("risk_level", PStr (level_label r.1)); ("risk_score", PInt r.2)].

Definition assess_row (cols : list string) (row : list pyval)
  : result (list (string * pyval)) :=
  r ← row_risk cols row;
  Ok (result_record r).

(** The body of the batch page for an uploaded table.  [display] stands
    for the library call [st.dataframe(batch_df)]: it returns, or raises
    when the library cannot show the table. *)
Definition batch_analysis (display : DataFrame → result unit)
    (batch_df : DataFrame) : result batch_page :=
  if forallb (λ col, bool_decide (col ∈ columns batch_df)) required_columns
  then
    results ← mapM (assess_row (columns batch_df)) (rows batch_df);
    let results_df := DataFrame_of_records results in
    levels ← df_getitem results_df "risk_level";
    let batch_df := df_setitem batch_df "risk_level" levels in
    scores ← df_getitem results_df "risk_score";
    let batch_df := df_setitem batch_df "risk_score" scores in
    _ ← display batch_df;
    Ok (st_dataframe batch_df)
  else Ok (st_error batch_error_message).

(** A display that refuses a table holding an integer that fits no 64-bit
    type, as the conversion of the table for the browser does. *)
Definition fits_64_bits (v : pyval) : bool :=
  match v with
  | PInt z => (- 2 ^ 63 <=? z) && (z <? 2 ^ 64)
  | _ => true
  end.

Definition display_64_bits (df : DataFrame) : result unit :=
  if forallb fits_64_bits (index df) && forallb (forallb fits_64_bits) (rows df)
  then Ok tt
  else Raise OverflowError.

(** The required columns an uploaded table lacks. *)
Definition missing_columns (df : DataFrame) : list string :=
  filter (λ c, c ∉ columns df) required_columns.

(** [occurs needle hay]: [needle] is a substring of [hay]. *)
Fixpoint occurs (needle hay : string) : bool :=
  String.prefix needle hay ||
  match hay with
  | EmptyString => false
  | String _ hay' => occurs needle hay'
  end.

(** The required columns a message names. *)
Definition named_columns (msg : string) : list string :=
  filter (λ c, Is_true (occurs c msg)) required_columns.

(** A row the calculator accepts: integer temperature, humidity and
    duration cells and an activity among the three options. *)
Definition valid_row (cols : list string) (row : list pyval) : Prop :=
  ∃ (t h d : Z) (a : string),
    row_getitem cols row "temperature" = Ok (PInt t) ∧
    row_getitem cols row "humidity" = Ok (PInt h) ∧
    row_getitem cols row "duration" = Ok (PInt d) ∧
    row_getitem cols row "activity" = Ok (PStr a) ∧
    a ∈ activity_options.

(** The sample table shown on the batch page. *)
Definition sample_df : DataFrame :=
  {| columns := ["temperature"; "humidity"; "duration"; "activity"];
     index := [PInt 0; PInt 1; PInt 2];
     rows := [ [PInt 35; PInt 60; PInt 4; PStr "Moderate"];
               [PInt 40; PInt 75; PInt 6; PStr "Heavy"];
               [PInt 28; PInt 50; PInt 3; PStr "Light"] ] |}.

(** An uploaded table with the four required columns and no row. *)
Definition empty_df : DataFrame :=
  {| columns := ["temperature"; "humidity"; "duration"; "activity"];
     index := [];
     rows := [] |}.


(** An uploaded table that lacks only the activity column. *)
Definition no_activity_df : DataFrame :=
  {| columns := ["temperature"; "humidity"; "duration"];
     index := [PInt 0];
     rows := [ [PInt 35; PInt 60; PInt 4] ] |}.

(** A file whose data lines hold five fields under a header of four: the
    first field labels the rows, here 1 and 0. *)
Definition relabelled_df : DataFrame :=
  {| columns := ["temperature"; "humidity"; "duration"; "activity"];
     index := [PInt 1; PInt 0];
     rows := [ [PInt 35; PInt 60; PInt 4; PStr "Moderate"];
               [PInt 40; PInt 75; PInt 6; PStr "Heavy"] ] |}.

(** The same with the labels 7 and 9. *)
Definition offset_df : DataFrame :=
  {| columns := ["temperature"; "humidity"; "duration"; "activity"];
     index := [PInt 7; PInt 9];
     rows := [ [PInt 35; PInt 60; PInt 4; PStr "Moderate"];
               [PInt 40; PInt 75; PInt 6; PStr "Heavy"] ] |}.

(** A table with a temperature beyond 64 bits. *)
Definition huge_df : DataFrame :=
  {| columns := ["temperature"; "humidity"; "duration"; "activity"];
     index := [PInt 0];
     rows := [ [PInt (10 ^ 30); PInt 60; PInt 4; PStr "Moderate"] ] |}.

(** ** Page titles *)

Definition mode_titles : gmap string string :=
  {[ "Single Assessment" := "Single Risk Assessment";
     "Comparison Mode" := "Scenario Comparison";
     "Historical Tracking" := "Historical Data Analysis";
     "Batch Analysis" := "Batch Processing" ]}.

(** The options of the mode radio button. *)
Definition dashboard_modes : list string :=
  ["Single Assessment"; "Comparison Mode"; "Historical Tracking";
   "Batch Analysis"].

(** [mode_titles[dashboard_mode]], the text of the page header. *)
Definition page_title (dashboard_mode : string) : result string :=
  match mode_titles !! dashboard_mode with
  | Some title => Ok title
  | None => Raise (KeyError (PStr dashboard_mode))
  end.

(** ** Colours and explanations

    Strings stand for their UTF-8 encoding. *)

Definition colors : gmap string string :=
  {[ "High" := "#FF4444"; "Moderate" := "#FFA500"; "Low" := "#44FF44" ]}.

(** [colors.get(risk_level, "#888888")] *)
Definition get_risk_color (risk_level : string) : string :=
  default "#888888" (colors !! risk_level).

(** The three f-strings of [ai_explain_risk]; the numbers are printed in
    decimal. *)
Definition explanations (temp humidity hours : Z) : gmap string string :=
  {[ "High" := "🚨 HIGH RISK DETECTED

Conditions: " +:+ pretty temp +:+ "°C, " +:+ pretty humidity +:+ "% humidity, " +:+ pretty hours +:+ "h duration

Immediate action required
Implement all safety protocols
Increase hydration frequency
Mandatory rest breaks
Monitor for heat stress symptoms";
     "Moderate" := "⚠️ MODERATE RISK

Conditions: " +:+ pretty temp +:+ "°C, " +:+ pretty humidity +:+ "% humidity, " +:+ pretty hours +:+ "h duration

Caution advised
Regular hydration breaks
Monitor comfort levels
Adjust work pace as needed";
     "Low" := "✅ LOW RISK

Conditions: " +:+ pretty temp +:+ "°C, " +:+ pretty humidity +:+ "% humidity, " +:+ pretty hours +:+ "h duration

Normal safety protocols apply
Maintain regular hydration
Standard work practices acceptable" ]}.

(** [explanations.get(risk, "No assessment available")]; the activity is
    an argument the function never reads. *)
Definition ai_explain_risk (temp humidity hours : Z) (activity risk : string)
  : string :=
  default "No assessment available" (explanations temp humidity hours !! risk).

(** The condition line every explanation carries. *)
Definition conditions_line (temp humidity hours : Z) : string :=
  "Conditions: " +:+ pretty temp +:+ "°C, " +:+ pretty humidity
  +:+ "% humidity, " +:+ pretty hours +:+ "h duration".

(** ** The radar chart of the single-assessment page

    The impact values plotted per factor: a factor below its threshold is
    drawn at 1, not at 0. *)

Definition temp_impact (temperature : Z) : Z :=
  if temperature >=? 40 then 3 else if temperature >=? 35 then 2 else 1.

Definition humidity_impact (humidity : Z) : Z :=
  if humidity >=? 70 then 2 else 1.

Definition duration_impact (work_duration : Z) : Z :=
  if work_duration >=? 6 then 2 else 1.

Definition activity_impact (activity_level : pyval) : result Z :=
  py_getitem activity_scores activity_level.

(** ** The temperature-humidity risk matrix *)

(** [np.arange(25, 51, 1)] and [np.arange(30, 91, 1)] *)
Definition temp_range : list Z := seqZ 25 (51 - 25).
Definition humidity_range : list Z := seqZ 30 (91 - 30).

(** The nested loop filling [heatmap_data[i, j]] with the score at
    [temp_range[i]], [humidity_range[j]] and the duration and activity of
    the assessment. *)
Definition heatmap_data (work_duration : Z) (activity_level : string)
  : result (list (list Z)) :=
  mapM (λ t,
    mapM (λ h,
      r ← calculate_risk (PInt t) (PInt h) (PInt work_duration)
            (PStr activity_level);
      Ok r.2) humidity_range) temp_range.

(** The cell the star marks: [current_temp_idx = temperature - 25],
    [current_humidity_idx = humidity - 30]. *)
Definition marked_cell (grid : list (list Z)) (temperature humidity : Z)
  : option Z :=
  grid !! Z.to_nat (temperature - 25) ≫= (.!! Z.to_nat (humidity - 30)).

(** ** Session history *)

(** The dict appended to [st.session_state.history]; the time stamp is
    the clock reading at the click. *)
Record history_entry : Type := mkEntry {
  entry_timestamp : Z;
  entry_temp : Z;
  entry_humidity : Z;
  entry_duration : Z;
  entry_activity : string;
  entry_risk_level : string;
  entry_risk_score : Z
}.

(** The "Assess Risk" button: the calculator runs, then the entry is
    appended. *)
Definition assess_risk_click (now temperature humidity work_duration : Z)
    (activity_level : string) (history : list history_entry)
  : result (list history_entry) :=
  r ← calculate_risk (PInt temperature) (PInt humidity) (PInt work_duration)
        (PStr activity_level);
  Ok (history ++
      [ {| entry_timestamp := now;
           entry_temp := temperature;
           entry_humidity := humidity;
           entry_duration := work_duration;
           entry_activity := activity_level;
           entry_risk_level := level_label r.1;
           entry_risk_score := r.2 |} ]).

Inductive click : Type :=
  | AssessRisk (now temperature humidity work_duration : Z)
      (activity_level : string)
  | ClearHistory.

(** One script run per click; a run that raises leaves the session state
    as it was. *)
Definition run_click (history : list history_entry) (c : click)
  : list history_entry :=
  match c with
  | AssessRisk now t h d a =>
      match assess_risk_click now t h d a history with
      | Ok history' => history'
      | Raise _ => history
      end
  | ClearHistory => []
  end.

Definition session (clicks : list click) (history : list history_entry)
  : list history_entry :=
  foldl run_click history clicks.

(** The metrics of the historical-tracking page. *)
Definition total_assessments (history : list history_entry) : nat :=
  length history.

Definition high_risk_count (history : list history_entry) : nat :=
  length (filter (λ e, entry_risk_level e = "High") history).

(** ** Batch metrics *)

(** [len(batch_df[batch_df['risk_level'] == label])] *)
Definition level_metric (batch_df : DataFrame) (label : string)
  : result nat :=
  col ← df_getitem batch_df "risk_level";
  Ok (length (filter (λ p, p.2 = PStr label) col)).

(** A frame is well formed when every row has a label and one cell per
    column. *)
Definition well_formed (df : DataFrame) : Prop :=
  length (index df) = length (rows df) ∧
  Forall (λ r, length r = length (columns df)) (rows df).

(** The matrix written with the contributions, for a known activity
    contribution [pts]. *)
Definition contributions_grid (work_duration pts : Z) : list (list Z) :=
  (λ t, (λ h, temperature_contribution t + humidity_contribution h
              + duration_contribution work_duration + pts)
        <$> humidity_range) <$> temp_range.

(** The cells of the two result columns for a result of the calculator. *)
Definition level_cell (r : risk_level * Z) : pyval := PStr (level_label r.1).
Definition score_cell (r : risk_level * Z) : pyval := PInt r.2.

(** An uploaded table with an unknown activity in its second row. *)
Definition faulty_df : DataFrame :=
  {| columns := ["temperature"; "humidity"; "duration"; "activity"];
     index := [PInt 0; PInt 1; PInt 2];
     rows := [ [PInt 35; PInt 60; PInt 4; PStr "Moderate"];
               [PInt 40; PInt 75; PInt 6; PStr "Run"];
               [PInt 28; PInt 50; PInt 3; PStr "Light"] ] |}.

Ltac case_geb :=
  repeat match goal with
  | |- context [?x >=? ?y] => destruct (Z.geb_spec x y)
  | H : context [?x >=? ?y] |- _ => destruct (Z.geb_spec x y)
  end.

(** * Properties *)

Example calculate_risk_heavy :
  calculate_risk (PInt 40) (PInt 75) (PInt 6) (PStr "Heavy") = Ok (High, 10).
Proof. reflexivity. Qed.

Example calculate_risk_light :
  calculate_risk (PInt 28) (PInt 50) (PInt 3) (PStr "Light") = Ok (Low, 1).
Proof. reflexivity. Qed.

Example calculate_risk_moderate :
  calculate_risk (PInt 36) (PInt 60) (PInt 4) (PStr "Moderate") = Ok (Low, 4).
Proof. reflexivity. Qed.

Example calculate_risk_unknown_activity :
  calculate_risk (PInt 36) (PInt 60) (PInt 4) (PStr "Extreme")
  = Raise (KeyError (PStr "Extreme")).
Proof. reflexivity. Qed.

Example batch_sample :
  batch_analysis display_64_bits sample_df
  = Ok (st_dataframe
      {| columns := ["temperature"; "humidity"; "duration"; "activity";
                     "risk_level"; "risk_score"];
         index := [PInt 0; PInt 1; PInt 2];
         rows := [ [PInt 35; PInt 60; PInt 4; PStr "Moderate"; PStr "Low"; PInt 4];
                   [PInt 40; PInt 75; PInt 6; PStr "Heavy"; PStr "High"; PInt 10];
                   [PInt 28; PInt 50; PInt 3; PStr "Light"; PStr "Low"; PInt 1] ] |}).
Proof. vm_compute. reflexivity. Qed.

(** ** Helper lemmas on the calculator *)

Lemma activity_scores_lookup (a : string) :
  activity_scores !! a =
    if decide (a = "Light") then Some 1
    else if decide (a = "Moderate") then Some 2
    else if decide (a = "Heavy") then Some 3
    else None.
Proof.
  unfold activity_scores.
  repeat case_decide; subst; try done.
  rewrite !lookup_insert_ne by done. by apply lookup_singleton_ne.
Qed.

Lemma activity_options_cases (a : string) :
  a ∈ activity_options ↔ a = "Light" ∨ a = "Moderate" ∨ a = "Heavy".
Proof. unfold activity_options. rewrite !elem_of_cons, elem_of_nil. tauto. Qed.

Lemma activity_contribution_option (a : string) :
  a ∈ activity_options →
  ∃ pts, activity_contribution (PStr a) = Ok pts ∧ 1 <= pts <= 3.
Proof.
  rewrite activity_options_cases.
  intros [-> | [-> | ->]]; eexists; (split; [reflexivity | lia]).
Qed.

Lemma activity_contribution_unknown (activity : pyval) :
  activity ∉ (PStr <$> activity_options) →
  activity_contribution activity = Raise (KeyError activity).
Proof.
  intros Hn. destruct activity as [z | s |]; try reflexivity.
  unfold activity_contribution, py_getitem.
  rewrite activity_scores_lookup.
  repeat case_decide; subst; try reflexivity;
    exfalso; apply Hn; unfold activity_options; simpl; set_solver.
Qed.

(** On integers the calculator is the sum of the table's contributions,
    whatever the integers are. *)
Lemma calculate_risk_int (t h d : Z) (activity : pyval) :
  calculate_risk (PInt t) (PInt h) (PInt d) activity =
    pts ← activity_contribution activity;
    let s := temperature_contribution t + humidity_contribution h
             + duration_contribution d + pts in
    Ok (level_of_score s, s).
Proof.
  unfold calculate_risk, score_temperature, score_humidity, score_hours,
    score_activity, activity_contribution, temperature_contribution,
    humidity_contribution, duration_contribution, py_ge.
  cbn [mbind result_bind].
  destruct (t >=? 40), (t >=? 35), (h >=? 70), (d >=? 6);
    cbn [mbind result_bind];
    destruct (py_getitem activity_scores activity); reflexivity.
Qed.

Lemma calculate_risk_level (temp humidity hours activity : pyval)
    (lvl : risk_level) (sc : Z) :
  calculate_risk temp humidity hours activity = Ok (lvl, sc) →
  lvl = level_of_score sc.
Proof.
  unfold calculate_risk.
  destruct (score_temperature temp 0) as [s1 |]; [| discriminate].
  cbn [mbind result_bind].
  destruct (score_humidity humidity s1) as [s2 |]; [| discriminate].
  cbn [mbind result_bind].
  destruct (score_hours hours s2) as [s3 |]; [| discriminate].
  cbn [mbind result_bind].
  destruct (score_activity activity s3) as [s4 |]; [| discriminate].
  cbn [mbind result_bind].
  intros [= <- <-]. reflexivity.
Qed.

Lemma contributions_bounds (t h d : Z) :
  0 <= temperature_contribution t <= 3 ∧
  0 <= humidity_contribution h <= 2 ∧
  0 <= duration_contribution d <= 2.
Proof.
  unfold temperature_contribution, humidity_contribution,
    duration_contribution.
  case_geb; lia.
Qed.

(** ** The scoring rules *)

(** C1: for temperature in [25,50], humidity in [30,90], duration in
    [1,10] and an activity among Light, Moderate, Heavy, the calculator
    returns a score equal to the sum of the four contributions of the
    breakdown table, and the score lies between 1 and 12. *)
Theorem calculate_risk_sum_of_contributions (t h d : Z) (a : string) :
  temperature_in_range t → humidity_in_range h → duration_in_range d →
  a ∈ activity_options →
  ∃ lvl sc pts,
    calculate_risk (PInt t) (PInt h) (PInt d) (PStr a) = Ok (lvl, sc) ∧
    activity_contribution (PStr a) = Ok pts ∧
    sc = temperature_contribution t + humidity_contribution h
         + duration_contribution d + pts ∧
    1 <= sc <= 12.
Proof.
  intros _ _ _ Ha.
  destruct (activity_contribution_option a Ha) as (pts & Hpts & Hb).
  pose proof (contributions_bounds t h d) as (Ht & Hh & Hd).
  eexists _, _, pts. rewrite calculate_risk_int, Hpts.
  cbn [mbind result_bind]. repeat split; lia.
Qed.

Lemma calculate_risk_sum_of_contributions_witness :
  ∃ lvl sc pts,
    calculate_risk (PInt 36) (PInt 60) (PInt 4) (PStr "Moderate") = Ok (lvl, sc) ∧
    activity_contribution (PStr "Moderate") = Ok pts ∧
    sc = temperature_contribution 36 + humidity_contribution 60
         + duration_contribution 4 + pts ∧
    1 <= sc <= 12.
Proof.
  apply (calculate_risk_sum_of_contributions 36 60 4 "Moderate").
  - unfold temperature_in_range. lia.
  - unfold humidity_in_range. lia.
  - unfold duration_in_range. lia.
  - unfold activity_options. apply list_elem_of_further, list_elem_of_here.
Defined.

(** C2: the temperature contributes 3 to the score [calculate_risk]
    returns when it is at least 40, 2 when it is at least 35 and below 40,
    and nothing below 35: the score is that amount above the score of the
    same call at any temperature [t0] below 35, which is the sum of the
    three other contributions.  The step of the calculator and the
    breakdown table give the same amounts. *)
Theorem temperature_contribution_rule (t t0 h d s : Z) (a : string) :
  a ∈ activity_options → t0 < 35 →
  ∃ lvl sc lvl0 sc0 pts,
    calculate_risk (PInt t) (PInt h) (PInt d) (PStr a) = Ok (lvl, sc) ∧
    calculate_risk (PInt t0) (PInt h) (PInt d) (PStr a) = Ok (lvl0, sc0) ∧
    activity_contribution (PStr a) = Ok pts ∧
    sc0 = humidity_contribution h + duration_contribution d + pts ∧
    (40 <= t →
       sc = sc0 + 3 ∧
       score_temperature (PInt t) s = Ok (s + 3) ∧
       temperature_contribution t = 3) ∧
    (35 <= t < 40 →
       sc = sc0 + 2 ∧
       score_temperature (PInt t) s = Ok (s + 2) ∧
       temperature_contribution t = 2) ∧
    (t < 35 →
       sc = sc0 + 0 ∧
       score_temperature (PInt t) s = Ok (s + 0) ∧
       temperature_contribution t = 0).
Proof.
  intros Ha Ht0.
  destruct (activity_contribution_option a Ha) as (pts & Hpts & _).
  rewrite !calculate_risk_int, Hpts. cbn [mbind result_bind].
  eexists _, _, _, _, pts.
  split; [reflexivity |]. split; [reflexivity |]. split; [reflexivity |].
  unfold score_temperature, temperature_contribution, py_ge.
  cbn [mbind result_bind].
  split; [case_geb; lia |].
  repeat split; intros; case_geb; cbn [mbind result_bind];
    first [lia | f_equal; lia | reflexivity].
Qed.

Lemma temperature_contribution_rule_witness :
  ∃ lvl sc lvl0 sc0 pts,
    calculate_risk (PInt 45) (PInt 75) (PInt 4) (PStr "Heavy") = Ok (lvl, sc) ∧
    calculate_risk (PInt 30) (PInt 75) (PInt 4) (PStr "Heavy") = Ok (lvl0, sc0) ∧
    activity_contribution (PStr "Heavy") = Ok pts ∧
    sc0 = humidity_contribution 75 + duration_contribution 4 + pts ∧
    (40 <= 45 →
       sc = sc0 + 3 ∧
       score_temperature (PInt 45) 0 = Ok (0 + 3) ∧
       temperature_contribution 45 = 3) ∧
    (35 <= 45 < 40 →
       sc = sc0 + 2 ∧
       score_temperature (PInt 45) 0 = Ok (0 + 2) ∧
       temperature_contribution 45 = 2) ∧
    (45 < 35 →
       sc = sc0 + 0 ∧
       score_temperature (PInt 45) 0 = Ok (0 + 0) ∧
       temperature_contribution 45 = 0).
Proof.
  apply (temperature_contribution_rule 45 30 75 4 0 "Heavy"); [| lia].
  unfold activity_options.
  apply list_elem_of_further, list_elem_of_further, list_elem_of_here.
Defined.

(** C3: in the score [calculate_risk] returns, humidity contributes 2
    when it is at least 70 and nothing otherwise, duration contributes 2
    when it is at least 6 and nothing otherwise, and the activity
    contributes exactly 1 for Light, 2 for Moderate and 3 for Heavy: the
    score is the temperature contribution plus these three amounts, it is
    the humidity amount above the score of the same call at any humidity
    [h0] below 70, and the duration amount above the score of the same
    call at any duration [d0] below 6.  The steps of the calculator and
    the breakdown table give the same amounts. *)
Theorem humidity_duration_activity_rules (t h d h0 d0 s : Z) (a : string) :
  a ∈ activity_options → h0 < 70 → d0 < 6 →
  ∃ lvl sc lvl_h sc_h lvl_d sc_d,
    calculate_risk (PInt t) (PInt h) (PInt d) (PStr a) = Ok (lvl, sc) ∧
    calculate_risk (PInt t) (PInt h0) (PInt d) (PStr a) = Ok (lvl_h, sc_h) ∧
    calculate_risk (PInt t) (PInt h) (PInt d0) (PStr a) = Ok (lvl_d, sc_d) ∧
    sc = sc_h + (if decide (70 <= h) then 2 else 0) ∧
    sc = sc_d + (if decide (6 <= d) then 2 else 0) ∧
    sc = temperature_contribution t
         + (if decide (70 <= h) then 2 else 0)
         + (if decide (6 <= d) then 2 else 0)
         + (if decide (a = "Light") then 1
            else if decide (a = "Moderate") then 2 else 3) ∧
    score_humidity (PInt h) s = Ok (s + (if decide (70 <= h) then 2 else 0)) ∧
    humidity_contribution h = (if decide (70 <= h) then 2 else 0) ∧
    score_hours (PInt d) s = Ok (s + (if decide (6 <= d) then 2 else 0)) ∧
    duration_contribution d = (if decide (6 <= d) then 2 else 0) ∧
    score_activity (PStr "Light") s = Ok (s + 1) ∧
    score_activity (PStr "Moderate") s = Ok (s + 2) ∧
    score_activity (PStr "Heavy") s = Ok (s + 3) ∧
    activity_contribution (PStr "Light") = Ok 1 ∧
    activity_contribution (PStr "Moderate") = Ok 2 ∧
    activity_contribution (PStr "Heavy") = Ok 3.
Proof.
  intros Ha Hh0 Hd0. rewrite !calculate_risk_int.
  assert (Hsteps :
    score_humidity (PInt h) s = Ok (s + (if decide (70 <= h) then 2 else 0)) ∧
    humidity_contribution h = (if decide (70 <= h) then 2 else 0) ∧
    score_hours (PInt d) s = Ok (s + (if decide (6 <= d) then 2 else 0)) ∧
    duration_contribution d = (if decide (6 <= d) then 2 else 0)).
  { unfold score_humidity, score_hours, humidity_contribution,
      duration_contribution, py_ge.
    cbn [mbind result_bind].
    repeat split; case_geb; case_decide;
      first [lia | f_equal; lia | reflexivity]. }
  destruct Hsteps as (Hs1 & Hc1 & Hs2 & Hc2).
  assert (Hh0c : humidity_contribution h0 = 0).
  { unfold humidity_contribution. case_geb; lia. }
  assert (Hd0c : duration_contribution d0 = 0).
  { unfold duration_contribution. case_geb; lia. }
  rewrite Hh0c, Hd0c, Hc1, Hc2.
  apply activity_options_cases in Ha as [-> | [-> | ->]];
    (eexists _, _, _, _, _, _;
     split; [reflexivity |]; split; [reflexivity |]; split; [reflexivity |];
     split; [lia |]; split; [lia |];
     split; [repeat case_decide; first [lia | discriminate | congruence] |];
     repeat split; first [assumption | reflexivity]).
Qed.

Lemma humidity_duration_activity_rules_witness :
  ∃ lvl sc lvl_h sc_h lvl_d sc_d,
    calculate_risk (PInt 36) (PInt 80) (PInt 7) (PStr "Moderate") = Ok (lvl, sc) ∧
    calculate_risk (PInt 36) (PInt 50) (PInt 7) (PStr "Moderate") = Ok (lvl_h, sc_h) ∧
    calculate_risk (PInt 36) (PInt 80) (PInt 3) (PStr "Moderate") = Ok (lvl_d, sc_d) ∧
    sc = sc_h + (if decide (70 <= 80) then 2 else 0) ∧
    sc = sc_d + (if decide (6 <= 7) then 2 else 0) ∧
    sc = temperature_contribution 36
         + (if decide (70 <= 80) then 2 else 0)
         + (if decide (6 <= 7) then 2 else 0)
         + (if decide ("Moderate" = "Light") then 1
            else if decide ("Moderate" = "Moderate") then 2 else 3) ∧
    score_humidity (PInt 80) 0 = Ok (0 + (if decide (70 <= 80) then 2 else 0)) ∧
    humidity_contribution 80 = (if decide (70 <= 80) then 2 else 0) ∧
    score_hours (PInt 7) 0 = Ok (0 + (if decide (6 <= 7) then 2 else 0)) ∧
    duration_contribution 7 = (if decide (6 <= 7) then 2 else 0) ∧
    score_activity (PStr "Light") 0 = Ok (0 + 1) ∧
    score_activity (PStr "Moderate") 0 = Ok (0 + 2) ∧
    score_activity (PStr "Heavy") 0 = Ok (0 + 3) ∧
    activity_contribution (PStr "Light") = Ok 1 ∧
    activity_contribution (PStr "Moderate") = Ok 2 ∧
    activity_contribution (PStr "Heavy") = Ok 3.
Proof.
  apply (humidity_duration_activity_rules 36 80 7 50 3 0 "Moderate");
    [| lia | lia].
  unfold activity_options. apply list_elem_of_further, list_elem_of_here.
Defined.

(** C4: whenever the calculator returns, the level is High exactly when
    the score is at least 8, Moderate exactly when it is between 5 and 7,
    and Low exactly when it is at most 4. *)
Theorem level_thresholds (temp humidity hours activity : pyval)
    (lvl : risk_level) (sc : Z) :
  calculate_risk temp humidity hours activity = Ok (lvl, sc) →
  (lvl = High ↔ 8 <= sc) ∧
  (lvl = Moderate ↔ 5 <= sc <= 7) ∧
  (lvl = Low ↔ sc <= 4).
Proof.
  intros ->%calculate_risk_level. unfold level_of_score.
  case_geb; repeat split; intros; first [lia | discriminate | reflexivity].
Qed.

Lemma level_thresholds_witness :
  (Moderate = High ↔ 8 <= 7) ∧ (Moderate = Moderate ↔ 5 <= 7 <= 7) ∧
  (Moderate = Low ↔ 7 <= 4).
Proof.
  apply (level_thresholds (PInt 40) (PInt 75) (PInt 3) (PStr "Moderate")).
  reflexivity.
Defined.

(** C5: the level is monotone in the score: a larger score never gets a
    lower level, under the ordering Low < Moderate < High. *)
Theorem level_of_score_monotone (s1 s2 : Z) :
  s1 <= s2 → level_le (level_of_score s1) (level_of_score s2).
Proof.
  intros Hle. unfold level_le, level_of_score.
  case_geb; simpl; lia.
Qed.

Lemma level_of_score_monotone_witness :
  4 <= 8 ∧ level_le (level_of_score 4) (level_of_score 8).
Proof. split; [lia | apply (level_of_score_monotone 4 8); lia]. Defined.

(** C6: an activity that is none of Light, Moderate, Heavy makes the
    calculator raise (the [KeyError] of the dict lookup, carrying the
    offending value); no score is returned and no contribution is
    assumed for it. *)
Theorem unknown_activity_raises (t h d : Z) (activity : pyval) :
  activity ∉ (PStr <$> activity_options) →
  calculate_risk (PInt t) (PInt h) (PInt d) activity
  = Raise (KeyError activity).
Proof.
  intros Hn. rewrite calculate_risk_int.
  by rewrite (activity_contribution_unknown activity Hn).
Qed.

Lemma unknown_activity_raises_witness :
  (PStr "Extreme" ∉ (PStr <$> activity_options)) ∧
  calculate_risk (PInt 36) (PInt 60) (PInt 4) (PStr "Extreme")
  = Raise (KeyError (PStr "Extreme")).
Proof.
  assert (Hn : PStr "Extreme" ∉ (PStr <$> activity_options)).
  { unfold activity_options. simpl. rewrite !not_elem_of_cons.
    repeat split; [discriminate .. | apply not_elem_of_nil]. }
  split; [exact Hn | apply (unknown_activity_raises 36 60 4 _ Hn)].
Defined.

(** C7, as the code has it: the calculator checks no range.  For all
    integers, inside the declared ranges or not, and an activity among the
    three options, it raises nothing and returns the score given by the
    same thresholds. *)
Theorem calculate_risk_checks_no_range (t h d : Z) (a : string) :
  a ∈ activity_options →
  (∀ e, calculate_risk (PInt t) (PInt h) (PInt d) (PStr a) ≠ Raise e) ∧
  ∃ pts,
    activity_contribution (PStr a) = Ok pts ∧
    let s := temperature_contribution t + humidity_contribution h
             + duration_contribution d + pts in
    calculate_risk (PInt t) (PInt h) (PInt d) (PStr a)
    = Ok (level_of_score s, s).
Proof.
  intros Ha.
  destruct (activity_contribution_option a Ha) as (pts & Hpts & _).
  rewrite calculate_risk_int, Hpts. cbn [mbind result_bind].
  split; [discriminate | eauto].
Qed.

Lemma calculate_risk_checks_no_range_witness :
  (∀ e, calculate_risk (PInt 60) (PInt 95) (PInt 12) (PStr "Light") ≠ Raise e) ∧
  ∃ pts,
    activity_contribution (PStr "Light") = Ok pts ∧
    let s := temperature_contribution 60 + humidity_contribution 95
             + duration_contribution 12 + pts in
    calculate_risk (PInt 60) (PInt 95) (PInt 12) (PStr "Light")
    = Ok (level_of_score s, s).
Proof.
  apply (calculate_risk_checks_no_range 60 95 12 "Light").
  unfold activity_options. apply list_elem_of_here.
Defined.

(** C7, as stated, fails: with temperature, humidity and duration all
    outside their declared ranges the calculator still returns a score. *)
Lemma out_of_range_input_is_scored :
  ¬ temperature_in_range 60 ∧ ¬ humidity_in_range 95 ∧
  ¬ duration_in_range 12 ∧
  calculate_risk (PInt 60) (PInt 95) (PInt 12) (PStr "Light") = Ok (High, 8).
Proof.
  unfold temperature_in_range, humidity_in_range, duration_in_range.
  split; [lia |]. split; [lia |]. split; [lia | reflexivity].
Qed.

(** C10: for inputs in the declared ranges and an activity among the three
    options the score is at most 10, so 11 and 12 never occur; 10 is
    reached exactly at temperature at least 40, humidity at least 70,
    duration at least 6 and activity Heavy. *)
Theorem calculate_risk_at_most_10 (t h d : Z) (a : string) :
  temperature_in_range t → humidity_in_range h → duration_in_range d →
  a ∈ activity_options →
  ∃ lvl sc,
    calculate_risk (PInt t) (PInt h) (PInt d) (PStr a) = Ok (lvl, sc) ∧
    sc <= 10 ∧ sc ≠ 11 ∧ sc ≠ 12 ∧
    (sc = 10 ↔ 40 <= t ∧ 70 <= h ∧ 6 <= d ∧ a = "Heavy").
Proof.
  intros _ _ _ Ha. rewrite calculate_risk_int.
  apply activity_options_cases in Ha as [-> | [-> | ->]];
    (eexists _, _; split; [reflexivity |]);
    unfold temperature_contribution, humidity_contribution,
      duration_contribution;
    case_geb; repeat split; try lia; try discriminate;
    intros; repeat match goal with H : _ ∧ _ |- _ => destruct H end;
    first [lia | discriminate | reflexivity].
Qed.

Lemma calculate_risk_at_most_10_witness :
  ∃ lvl sc,
    calculate_risk (PInt 40) (PInt 75) (PInt 6) (PStr "Heavy") = Ok (lvl, sc) ∧
    sc <= 10 ∧ sc ≠ 11 ∧ sc ≠ 12 ∧
    (sc = 10 ↔ 40 <= 40 ∧ 70 <= 75 ∧ 6 <= 6 ∧ "Heavy" = "Heavy").
Proof.
  apply (calculate_risk_at_most_10 40 75 6 "Heavy").
  - unfold temperature_in_range. lia.
  - unfold humidity_in_range. lia.
  - unfold duration_in_range. lia.
  - unfold activity_options.
    apply list_elem_of_further, list_elem_of_further, list_elem_of_here.
Defined.

Example batch_empty (display : DataFrame → result unit) :
  batch_analysis display empty_df = Raise (KeyError (PStr "risk_level")).
Proof. reflexivity. Qed.


Example batch_no_activity (display : DataFrame → result unit) :
  batch_analysis display no_activity_df = Ok (st_error batch_error_message) ∧
  missing_columns no_activity_df = ["activity"] ∧
  named_columns batch_error_message = required_columns.
Proof. split; [reflexivity |]. vm_compute. auto. Qed.

(** Rows labelled 1 and 0: each row receives the result stored under its
    label, which is the result of the other row. *)
Example batch_relabelled :
  batch_analysis display_64_bits relabelled_df
  = Ok (st_dataframe
      {| columns := ["temperature"; "humidity"; "duration"; "activity";
                     "risk_level"; "risk_score"];
         index := [PInt 1; PInt 0];
         rows := [ [PInt 35; PInt 60; PInt 4; PStr "Moderate"; PStr "High"; PInt 10];
                   [PInt 40; PInt 75; PInt 6; PStr "Heavy"; PStr "Low"; PInt 4] ] |}).
Proof. vm_compute. reflexivity. Qed.

(** Rows labelled 7 and 9: no result is stored under these labels. *)
Example batch_offset :
  batch_analysis display_64_bits offset_df
  = Ok (st_dataframe
      {| columns := ["temperature"; "humidity"; "duration"; "activity";
                     "risk_level"; "risk_score"];
         index := [PInt 7; PInt 9];
         rows := [ [PInt 35; PInt 60; PInt 4; PStr "Moderate"; PNaN; PNaN];
                   [PInt 40; PInt 75; PInt 6; PStr "Heavy"; PNaN; PNaN] ] |}).
Proof. vm_compute. reflexivity. Qed.

(** A temperature beyond 64 bits is scored, and the display then raises. *)
Example batch_huge :
  row_risk (columns huge_df) [PInt (10 ^ 30); PInt 60; PInt 4; PStr "Moderate"]
  = Ok (Moderate, 5) ∧
  batch_analysis display_64_bits huge_df = Raise OverflowError.
Proof. split; vm_compute; reflexivity. Qed.

(** ** Helper lemmas on tables *)


Lemma column_index_Some (cols : list string) (c : string) (j : nat) :
  column_index cols c = Some j → c ∈ cols.
Proof.
  revert j. induction cols as [| c' cols IH]; [done |].
  intros j. simpl. case_decide as Heq.
  - intros _. subst. apply list_elem_of_here.
  - destruct (column_index cols c) as [k |] eqn:Hk; [| done].
    intros _. apply list_elem_of_further. by eapply IH.
Qed.

Lemma row_getitem_Ok (cols : list string) (row : list pyval) (c : string)
    (v : pyval) :
  row_getitem cols row c = Ok v → c ∈ cols.
Proof.
  unfold row_getitem.
  destruct (column_index cols c) as [j |] eqn:Hj; simpl; [| done].
  intros _. by eapply column_index_Some.
Qed.

Lemma valid_row_columns (cols : list string) (row : list pyval) :
  valid_row cols row →
  forallb (λ col, bool_decide (col ∈ cols)) required_columns = true.
Proof.
  intros (t & h & d & a & Ht & Hh & Hd & Ha & _).
  apply row_getitem_Ok in Ht, Hh, Hd, Ha.
  unfold required_columns. simpl.
  by rewrite !bool_decide_eq_true_2.
Qed.

Lemma valid_row_risk (cols : list string) (row : list pyval) :
  valid_row cols row → ∃ lvl sc, row_risk cols row = Ok (lvl, sc).
Proof.
  intros (t & h & d & a & Ht & Hh & Hd & Ha & Hopt).
  unfold row_risk. rewrite Ht, Hh, Hd, Ha. cbn [mbind result_bind].
  destruct (activity_contribution_option a Hopt) as (pts & Hpts & _).
  rewrite calculate_risk_int, Hpts. cbn [mbind result_bind]. eauto.
Qed.

Lemma assess_row_Ok (cols : list string) (row : list pyval)
    (r : risk_level * Z) :
  row_risk cols row = Ok r → assess_row cols row = Ok (result_record r).
Proof. intros Hr. unfold assess_row. by rewrite Hr. Qed.

Lemma assess_row_Raise (cols : list string) (row : list pyval) (e : exn) :
  row_risk cols row = Raise e → assess_row cols row = Raise e.
Proof. intros Hr. unfold assess_row. by rewrite Hr. Qed.

(** The loop over valid rows completes with one record per row, in row
    order. *)
Lemma assess_rows_results (cols : list string) (rws : list (list pyval)) :
  Forall (valid_row cols) rws →
  ∃ rs,
    mapM (assess_row cols) rws = Ok (result_record <$> rs) ∧
    Forall2 (λ row r, row_risk cols row = Ok r) rws rs.
Proof.
  induction 1 as [| row rws Hrow _ (rs & Hm & HF)].
  - exists []. split; [reflexivity | constructor].
  - destruct (valid_row_risk cols row Hrow) as (lvl & sc & Hr).
    exists ((lvl, sc) :: rs). split; [| by constructor].
    cbn [mapM]. rewrite (assess_row_Ok _ _ _ Hr), Hm. reflexivity.
Qed.

(** Row labels. *)

Lemma range_index_length (n : nat) : length (range_index n) = n.
Proof. unfold range_index. by rewrite length_fmap, length_seq. Qed.

Lemma range_index_lookup (n i : nat) :
  (i < n)%nat → range_index n !! i = Some (PInt (Z.of_nat i)).
Proof.
  intros Hi. unfold range_index.
  rewrite list_lookup_fmap, lookup_seq_lt by done. reflexivity.
Qed.

Lemma series_get_seq (vs : list pyval) (k i : nat) :
  series_get (zip ((λ j, PInt (Z.of_nat j)) <$> seq k (length vs)) vs)
    (PInt (Z.of_nat (k + i)))
  = vs !! i.
Proof.
  revert k i. induction vs as [| v vs IH]; intros k i; [done |].
  cbn [length seq]. rewrite fmap_cons. cbn [zip zip_with series_get].
  destruct i as [| i].
  - rewrite Nat.add_0_r, decide_True by done. reflexivity.
  - rewrite decide_False by (intros [= Heq]; lia).
    replace (k + S i)%nat with (S k + i)%nat by lia. apply IH.
Qed.

(** Under the default labels a series is read by position. *)
Lemma series_get_range (vs : list pyval) (i : nat) :
  series_get (zip (range_index (length vs)) vs) (PInt (Z.of_nat i)) = vs !! i.
Proof. apply (series_get_seq vs 0 i). Qed.

(** The cell a row receives when frame and series both carry the
    default labels. *)
Lemma aligned_cell (idx vs : list pyval) (n i : nat) (v : pyval) :
  idx = range_index n → length vs = n → vs !! i = Some v →
  default PNaN (idx !! i ≫= series_get (zip (range_index n) vs)) = v.
Proof.
  intros -> <- Hv.
  rewrite range_index_lookup by (by apply lookup_lt_Some in Hv).
  cbn [mbind option_bind]. by rewrite series_get_range, Hv.
Qed.

(** The two series read from the frame of results. *)
Lemma results_frame_columns (rs : list (risk_level * Z)) :
  rs ≠ [] →
  df_getitem (DataFrame_of_records (result_record <$> rs)) "risk_level"
  = Ok (zip (range_index (length rs)) (level_cell <$> rs)) ∧
  df_getitem (DataFrame_of_records (result_record <$> rs)) "risk_score"
  = Ok (zip (range_index (length rs)) (score_cell <$> rs)).
Proof.
  intros Hne. destruct rs as [| r0 rs]; [done |].
  unfold df_getitem, DataFrame_of_records.
  rewrite fmap_cons. cbn [columns rows index].
  change ((result_record r0).*1) with ["risk_level"; "risk_score"].
  change (column_index ["risk_level"; "risk_score"] "risk_level")
    with (Some 0%nat).
  change (column_index ["risk_level"; "risk_score"] "risk_score")
    with (Some 1%nat).
  rewrite <- fmap_cons, length_fmap.
  split; do 2 f_equal; rewrite <- !list_fmap_compose;
    apply list_fmap_ext; intros i r _; reflexivity.
Qed.

(** The table handed to the display for valid rows: the two result
    columns assigned in turn. *)
Lemma batch_analysis_valid (df : DataFrame) :
  rows df ≠ [] →
  Forall (valid_row (columns df)) (rows df) →
  ∃ rs,
    Forall2 (λ row r, row_risk (columns df) row = Ok r) (rows df) rs ∧
    ∀ display,
      batch_analysis display df
      = let shown :=
          df_setitem
            (df_setitem df "risk_level"
               (zip (range_index (length rs)) (level_cell <$> rs)))
            "risk_score" (zip (range_index (length rs)) (score_cell <$> rs))
        in _ ← display shown; Ok (st_dataframe shown).
Proof.
  intros Hne Hvalid.
  destruct (assess_rows_results _ _ Hvalid) as (rs & Hm & HF).
  exists rs. split; [exact HF |]. intros display.
  assert (Hrs : rs ≠ []).
  { intros ->. apply Forall2_nil_inv_r in HF. done. }
  destruct (results_frame_columns rs Hrs) as [Hlevels Hscores].
  unfold batch_analysis.
  destruct (rows df) as [| row0 rws] eqn:Hrows; [done |].
  rewrite (valid_row_columns _ row0)
    by (by apply Forall_cons_1 in Hvalid as [? _]).
  rewrite <- Hrows in *. rewrite Hm. cbn [mbind result_bind].
  rewrite Hlevels. cbn [mbind result_bind].
  rewrite Hscores. reflexivity.
Qed.


(** ** Batch analysis *)




(** C9, as the code has it: a table lacking at least one required column
    is rejected whatever its rows hold, none of them being assessed, with
    the one fixed message, which names all four required columns, the
    present ones as well as the lacking ones. *)
Theorem batch_missing_column_rejected (display : DataFrame → result unit)
    (df : DataFrame) :
  missing_columns df ≠ [] →
  batch_analysis display df = Ok (st_error batch_error_message) ∧
  named_columns batch_error_message = required_columns.
Proof.
  intros Hmiss. split; [| by vm_compute].
  unfold batch_analysis.
  destruct (forallb _ required_columns) eqn:Hall; [| reflexivity].
  exfalso. apply Hmiss.
  unfold missing_columns, required_columns in *. simpl in Hall.
  repeat (apply andb_prop in Hall as [?%bool_decide_eq_true_1 Hall]).
  repeat (rewrite filter_cons_False by tauto). reflexivity.
Qed.

Lemma batch_missing_column_rejected_witness :
  missing_columns no_activity_df ≠ [] ∧
  batch_analysis display_64_bits no_activity_df
  = Ok (st_error batch_error_message) ∧
  named_columns batch_error_message = required_columns.
Proof.
  assert (Hmiss : missing_columns no_activity_df ≠ []).
  { change (missing_columns no_activity_df) with ["activity"]. discriminate. }
  split; [exact Hmiss |].
  apply (batch_missing_column_rejected display_64_bits _ Hmiss).
Defined.

(** C9, as stated, fails: for a table lacking only the activity column
    the message names temperature, humidity and duration too, so it does
    not tell which columns are missing. *)
Lemma batch_error_names_all_columns :
  missing_columns no_activity_df = ["activity"] ∧
  ¬ ∃ display msg,
      batch_analysis display no_activity_df = Ok (st_error msg) ∧
      named_columns msg = missing_columns no_activity_df.
Proof.
  split; [by vm_compute |].
  intros (display & msg & Hrun & Hnamed).
  destruct (batch_no_activity display) as (Hrej & Hmiss & Hall).
  rewrite Hrej in Hrun. injection Hrun as <-.
  rewrite Hall, Hmiss in Hnamed. discriminate Hnamed.
Qed.

(** * Further properties of the calculator *)

Lemma contributions_monotone (t h d t' h' d' : Z) :
  t <= t' → h <= h' → d <= d' →
  temperature_contribution t <= temperature_contribution t' ∧
  humidity_contribution h <= humidity_contribution h' ∧
  duration_contribution d <= duration_contribution d'.
Proof.
  intros Ht Hh Hd.
  unfold temperature_contribution, humidity_contribution,
    duration_contribution.
  case_geb; lia.
Qed.

Lemma level_of_score_rank (s1 s2 : Z) :
  s1 <= s2 → (level_rank (level_of_score s1) <= level_rank (level_of_score s2))%nat.
Proof. intros Hle. unfold level_of_score. case_geb; simpl; lia. Qed.

(** X1: a hotter, more humid or longer exposure never lowers the result:
    with the same activity, raising temperature, humidity or duration
    gives a score and a level at least as high. *)
Theorem calculate_risk_monotone (t h d t' h' d' : Z) (a : string) :
  t <= t' → h <= h' → d <= d' → a ∈ activity_options →
  ∃ lvl sc lvl' sc',
    calculate_risk (PInt t) (PInt h) (PInt d) (PStr a) = Ok (lvl, sc) ∧
    calculate_risk (PInt t') (PInt h') (PInt d') (PStr a) = Ok (lvl', sc') ∧
    sc <= sc' ∧ level_le lvl lvl'.
Proof.
  intros Ht Hh Hd Ha.
  destruct (activity_contribution_option a Ha) as (pts & Hpts & _).
  destruct (contributions_monotone t h d t' h' d' Ht Hh Hd) as (? & ? & ?).
  rewrite !calculate_risk_int, Hpts. cbn [mbind result_bind].
  eexists _, _, _, _. split; [reflexivity |]. split; [reflexivity |].
  split; [lia |]. apply level_of_score_rank. lia.
Qed.

Lemma calculate_risk_monotone_witness :
  ∃ lvl sc lvl' sc',
    calculate_risk (PInt 30) (PInt 60) (PInt 4) (PStr "Heavy") = Ok (lvl, sc) ∧
    calculate_risk (PInt 41) (PInt 72) (PInt 4) (PStr "Heavy") = Ok (lvl', sc') ∧
    sc <= sc' ∧ level_le lvl lvl'.
Proof.
  apply (calculate_risk_monotone 30 60 4 41 72 4 "Heavy"); [lia | lia | lia |].
  unfold activity_options.
  apply list_elem_of_further, list_elem_of_further, list_elem_of_here.
Defined.

(** X2: a text value in the place of temperature, humidity or duration
    makes the call raise [TypeError], whatever the activity is, known or
    not: the comparisons run before the activity is looked up. *)
Theorem text_in_numeric_argument_raises (temp humidity hours activity : pyval)
    (s : string) :
  temp = PStr s ∨ humidity = PStr s ∨ hours = PStr s →
  calculate_risk temp humidity hours activity = Raise TypeError.
Proof.
  intros [-> | [-> | ->]]; unfold calculate_risk, score_temperature,
    score_humidity, score_hours; try reflexivity.
  - destruct temp as [t | |]; cbn [py_ge mbind result_bind];
      [destruct (t >=? 40), (t >=? 35) | | ]; reflexivity.
  - destruct temp as [t | |]; cbn [py_ge mbind result_bind];
      [destruct (t >=? 40), (t >=? 35) | | ]; cbn [mbind result_bind];
      try reflexivity;
      (destruct humidity as [h | |]; cbn [py_ge mbind result_bind];
       [destruct (h >=? 70) | | ]; reflexivity).
Qed.

Lemma text_in_numeric_argument_raises_witness :
  calculate_risk (PInt 36) (PStr "humid") (PInt 4) (PStr "Extreme")
  = Raise TypeError.
Proof.
  apply (text_in_numeric_argument_raises _ _ _ _ "humid").
  right. left. reflexivity.
Defined.

(** X3: a missing number (NaN) in the place of temperature, humidity or
    duration is not rejected: it is scored like a value below every
    threshold, whatever the other arguments are. *)
Theorem nan_scored_as_below_threshold (temp humidity hours activity : pyval) :
  calculate_risk PNaN humidity hours activity
  = calculate_risk (PInt 0) humidity hours activity ∧
  calculate_risk temp PNaN hours activity
  = calculate_risk temp (PInt 0) hours activity ∧
  calculate_risk temp humidity PNaN activity
  = calculate_risk temp humidity (PInt 0) activity.
Proof. repeat split. Qed.

(** X4: below 35 degrees the level is never High: the score is then at
    most 7, whatever humidity, duration and activity are. *)
Theorem never_high_below_35 (t h d : Z) (activity : pyval)
    (lvl : risk_level) (sc : Z) :
  t < 35 →
  calculate_risk (PInt t) (PInt h) (PInt d) activity = Ok (lvl, sc) →
  sc <= 7 ∧ lvl ≠ High.
Proof.
  intros Ht. rewrite calculate_risk_int. unfold activity_contribution.
  destruct activity as [z | a |]; try discriminate.
  unfold py_getitem. rewrite activity_scores_lookup.
  pose proof (contributions_bounds t h d) as (_ & Hh & Hd).
  unfold temperature_contribution.
  repeat case_decide; cbn [mbind result_bind]; try discriminate;
    intros [= <- <-]; unfold level_of_score; case_geb;
    split; first [lia | discriminate].
Qed.

Lemma never_high_below_35_witness :
  34 < 35 ∧ 7 <= 7 ∧ Moderate ≠ High.
Proof.
  split; [lia |].
  apply (never_high_below_35 34 90 10 (PStr "Heavy") Moderate 7);
    [lia | reflexivity].
Defined.

(** X5: at 40 degrees or more, humidity 70 or more and 6 hours or more the
    level is High for every activity; for Light activity this is the only
    way to reach High. *)
Theorem high_at_all_thresholds (t h d : Z) (a : string) :
  a ∈ activity_options →
  ∃ lvl sc,
    calculate_risk (PInt t) (PInt h) (PInt d) (PStr a) = Ok (lvl, sc) ∧
    (40 <= t ∧ 70 <= h ∧ 6 <= d → lvl = High) ∧
    (a = "Light" → lvl = High → 40 <= t ∧ 70 <= h ∧ 6 <= d).
Proof.
  intros Ha. rewrite calculate_risk_int.
  apply activity_options_cases in Ha as [-> | [-> | ->]];
    (eexists _, _; split; [reflexivity |]);
    unfold temperature_contribution, humidity_contribution,
      duration_contribution, level_of_score;
    case_geb; split; intros; try discriminate; try reflexivity; lia.
Qed.

Lemma high_at_all_thresholds_witness :
  ∃ lvl sc,
    calculate_risk (PInt 42) (PInt 80) (PInt 7) (PStr "Light") = Ok (lvl, sc) ∧
    (40 <= 42 ∧ 70 <= 80 ∧ 6 <= 7 → lvl = High) ∧
    ("Light" = "Light" → lvl = High → 40 <= 42 ∧ 70 <= 80 ∧ 6 <= 7).
Proof.
  apply (high_at_all_thresholds 42 80 7 "Light").
  unfold activity_options. apply list_elem_of_here.
Defined.

(** X6: every score from 1 to 10 is produced by some input within the
    declared ranges. *)
Theorem every_score_1_to_10_reached (s : Z) :
  1 <= s <= 10 →
  ∃ t h d a,
    temperature_in_range t ∧ humidity_in_range h ∧ duration_in_range d ∧
    a ∈ activity_options ∧
    calculate_risk (PInt t) (PInt h) (PInt d) (PStr a)
    = Ok (level_of_score s, s).
Proof.
  intros Hs.
  unfold temperature_in_range, humidity_in_range, duration_in_range.
  assert (Hcases : s = 1 ∨ s = 2 ∨ s = 3 ∨ s = 4 ∨ s = 5 ∨ s = 6 ∨ s = 7
                 ∨ s = 8 ∨ s = 9 ∨ s = 10) by lia.
  destruct Hcases as [-> | [-> | [-> | [-> | [-> | [-> | [-> | [-> | [-> | ->]]]]]]]]].
  - exists 25, 30, 1, "Light". rewrite activity_options_cases. repeat split; auto; lia.
  - exists 25, 30, 1, "Moderate". rewrite activity_options_cases. repeat split; auto; lia.
  - exists 25, 30, 1, "Heavy". rewrite activity_options_cases. repeat split; intuition lia.
  - exists 35, 30, 1, "Moderate". rewrite activity_options_cases. repeat split; auto; lia.
  - exists 35, 30, 1, "Heavy". rewrite activity_options_cases. repeat split; intuition lia.
  - exists 40, 30, 1, "Heavy". rewrite activity_options_cases. repeat split; intuition lia.
  - exists 40, 70, 1, "Moderate". rewrite activity_options_cases. repeat split; auto; lia.
  - exists 40, 70, 1, "Heavy". rewrite activity_options_cases. repeat split; intuition lia.
  - exists 40, 70, 6, "Moderate". rewrite activity_options_cases. repeat split; auto; lia.
  - exists 40, 70, 6, "Heavy". rewrite activity_options_cases. repeat split; intuition lia.
Qed.

Lemma every_score_1_to_10_reached_witness :
  ∃ t h d a,
    temperature_in_range t ∧ humidity_in_range h ∧ duration_in_range d ∧
    a ∈ activity_options ∧
    calculate_risk (PInt t) (PInt h) (PInt d) (PStr a)
    = Ok (level_of_score 7, 7).
Proof. apply (every_score_1_to_10_reached 7). lia. Defined.

(** * Colours, explanations and titles *)

Lemma colors_lookup (s : string) :
  colors !! s =
    if decide (s = "High") then Some "#FF4444"
    else if decide (s = "Moderate") then Some "#FFA500"
    else if decide (s = "Low") then Some "#44FF44"
    else None.
Proof.
  unfold colors.
  repeat case_decide; subst; try done.
  rewrite !lookup_insert_ne by done. by apply lookup_singleton_ne.
Qed.

(** X7: the fallback grey is returned exactly for the labels that are
    none of High, Moderate, Low; the three levels never get it. *)
Theorem get_risk_color_grey_iff_unknown (label : string) :
  get_risk_color label = "#888888" ↔ label ∉ ["High"; "Moderate"; "Low"].
Proof.
  unfold get_risk_color. rewrite colors_lookup.
  rewrite !not_elem_of_cons.
  repeat case_decide; subst; simpl; split; intros Hx;
    first [discriminate | reflexivity | tauto
          | repeat split; first [done | apply not_elem_of_nil] ].
Qed.

(** X8: the colour shown for a result of the calculator follows the score:
    red exactly from 8 up, orange exactly from 5 to 7, green exactly up
    to 4. *)
Theorem color_follows_score (temp humidity hours activity : pyval)
    (lvl : risk_level) (sc : Z) :
  calculate_risk temp humidity hours activity = Ok (lvl, sc) →
  (get_risk_color (level_label lvl) = "#FF4444" ↔ 8 <= sc) ∧
  (get_risk_color (level_label lvl) = "#FFA500" ↔ 5 <= sc <= 7) ∧
  (get_risk_color (level_label lvl) = "#44FF44" ↔ sc <= 4).
Proof.
  intros ->%calculate_risk_level. unfold level_of_score.
  case_geb; cbn; repeat split; intros;
    first [lia | discriminate | reflexivity].
Qed.

Lemma color_follows_score_witness :
  (get_risk_color (level_label High) = "#FF4444" ↔ 8 <= 10) ∧
  (get_risk_color (level_label High) = "#FFA500" ↔ 5 <= 10 <= 7) ∧
  (get_risk_color (level_label High) = "#44FF44" ↔ 10 <= 4).
Proof.
  apply (color_follows_score (PInt 40) (PInt 75) (PInt 6) (PStr "Heavy")).
  reflexivity.
Defined.

Lemma string_prefix_app (n rest : string) : String.prefix n (n +:+ rest) = true.
Proof.
  induction n as [| c n IH]; simpl; [by destruct rest |].
  destruct (Ascii.ascii_dec c c); [exact IH | done].
Qed.

Lemma string_append_assoc (a b c : string) :
  (a +:+ b) +:+ c = a +:+ (b +:+ c).
Proof.
  induction a as [| x a IH]; [done |].
  change (String x ((a +:+ b) +:+ c) = String x (a +:+ (b +:+ c))).
  by rewrite IH.
Qed.

Lemma occurs_prefix (n hay : string) :
  String.prefix n hay = true → occurs n hay = true.
Proof. intros H. destruct hay; cbn [occurs]; rewrite H; reflexivity. Qed.

Lemma occurs_here (n rest : string) : occurs n (n +:+ rest) = true.
Proof. apply occurs_prefix, string_prefix_app. Qed.

Lemma occurs_skip (c : Ascii.ascii) (n hay : string) :
  occurs n hay = true → occurs n (String c hay) = true.
Proof. intros H. simpl. rewrite H. apply orb_true_r. Qed.

Lemma occurs_conditions (x y z post : string) :
  occurs ("Conditions: " +:+ x +:+ "°C, " +:+ y +:+ "% humidity, " +:+ z
          +:+ "h duration")
    ("Conditions: " +:+ x +:+ "°C, " +:+ y +:+ "% humidity, " +:+ z
     +:+ "h duration" +:+ post) = true.
Proof.
  set (n := "Conditions: " +:+ x +:+ "°C, " +:+ y +:+ "% humidity, " +:+ z
            +:+ "h duration").
  replace ("Conditions: " +:+ x +:+ "°C, " +:+ y +:+ "% humidity, " +:+ z
           +:+ "h duration" +:+ post) with (n +:+ post).
  - apply occurs_here.
  - unfold n. by rewrite !string_append_assoc.
Qed.

(** X9: for each of the three levels the explanation is a real one, not
    the fallback text, and it quotes the temperature, humidity and
    duration it was given; for any other label it is the fallback
    "No assessment available". *)
Theorem ai_explain_risk_cases (temp humidity hours : Z) (activity risk : string) :
  (risk ∈ ["High"; "Moderate"; "Low"] →
     ai_explain_risk temp humidity hours activity risk
       ≠ "No assessment available" ∧
     occurs (conditions_line temp humidity hours)
       (ai_explain_risk temp humidity hours activity risk) = true) ∧
  (risk ∉ ["High"; "Moderate"; "Low"] →
     ai_explain_risk temp humidity hours activity risk
       = "No assessment available").
Proof.
  unfold ai_explain_risk, explanations, conditions_line. split.
  - rewrite !elem_of_cons, elem_of_nil.
    intros [-> | [-> | [-> | []]]].
    + rewrite lookup_insert_eq. cbn [default].
      split; [discriminate |].
      repeat first [apply occurs_conditions | apply occurs_skip].
    + rewrite lookup_insert_ne, lookup_insert_eq by done. cbn [default].
      split; [discriminate |].
      repeat first [apply occurs_conditions | apply occurs_skip].
    + rewrite !lookup_insert_ne, lookup_singleton_eq by done. cbn [default].
      split; [discriminate |].
      repeat first [apply occurs_conditions | apply occurs_skip].
  - rewrite !not_elem_of_cons. intros (? & ? & ? & _).
    rewrite !lookup_insert_ne by done. by rewrite lookup_singleton_ne.
Qed.

(** X10: the header lookup succeeds exactly for the four modes the radio
    button offers, so no selectable mode can raise [KeyError]; any other
    name would. *)
Theorem page_title_defined_iff_mode (dashboard_mode : string) :
  (∃ title, page_title dashboard_mode = Ok title)
  ↔ dashboard_mode ∈ dashboard_modes.
Proof.
  unfold page_title, mode_titles, dashboard_modes.
  rewrite !elem_of_cons, elem_of_nil.
  destruct (decide (dashboard_mode = "Single Assessment")) as [-> | H1];
    [split; eauto |].
  destruct (decide (dashboard_mode = "Comparison Mode")) as [-> | H2];
    [split; eauto |].
  destruct (decide (dashboard_mode = "Historical Tracking")) as [-> | H3];
    [split; eauto |].
  destruct (decide (dashboard_mode = "Batch Analysis")) as [-> | H4];
    [split; eauto 6 |].
  rewrite !lookup_insert_ne, lookup_singleton_ne by done.
  split; [intros [title Ht]; discriminate | tauto].
Qed.

(** * The radar chart *)

(** X11: the radar chart does not plot the contributions: each of
    temperature, humidity and duration is drawn at its contribution when
    that is positive and at 1 when it is 0, so every plotted value lies
    between 1 and 3, and the plotted values add up to the score exactly
    when temperature is at least 35, humidity at least 70 and duration at
    least 6; otherwise they add up to more. *)
Theorem radar_impacts_vs_score (t h d : Z) (a : string) :
  a ∈ activity_options →
  temp_impact t = Z.max 1 (temperature_contribution t) ∧
  humidity_impact h = Z.max 1 (humidity_contribution h) ∧
  duration_impact d = Z.max 1 (duration_contribution d) ∧
  ∃ lvl sc ai,
    calculate_risk (PInt t) (PInt h) (PInt d) (PStr a) = Ok (lvl, sc) ∧
    activity_impact (PStr a) = Ok ai ∧
    1 <= ai <= 3 ∧
    sc <= temp_impact t + humidity_impact h + duration_impact d + ai ∧
    (sc = temp_impact t + humidity_impact h + duration_impact d + ai
     ↔ 35 <= t ∧ 70 <= h ∧ 6 <= d).
Proof.
  intros Ha.
  destruct (activity_contribution_option a Ha) as (pts & Hpts & Hb).
  rewrite calculate_risk_int, Hpts. cbn [mbind result_bind].
  unfold activity_impact. unfold activity_contribution in Hpts. rewrite Hpts.
  unfold temp_impact, humidity_impact, duration_impact,
    temperature_contribution, humidity_contribution, duration_contribution.
  split; [case_geb; lia |]. split; [case_geb; lia |]. split; [case_geb; lia |].
  eexists _, _, pts. split; [reflexivity |]. split; [reflexivity |].
  split; [lia |]. case_geb; lia.
Qed.

Lemma radar_impacts_vs_score_witness :
  temp_impact 30 = Z.max 1 (temperature_contribution 30) ∧
  humidity_impact 50 = Z.max 1 (humidity_contribution 50) ∧
  duration_impact 3 = Z.max 1 (duration_contribution 3) ∧
  ∃ lvl sc ai,
    calculate_risk (PInt 30) (PInt 50) (PInt 3) (PStr "Light") = Ok (lvl, sc) ∧
    activity_impact (PStr "Light") = Ok ai ∧
    1 <= ai <= 3 ∧
    sc <= temp_impact 30 + humidity_impact 50 + duration_impact 3 + ai ∧
    (sc = temp_impact 30 + humidity_impact 50 + duration_impact 3 + ai
     ↔ 35 <= 30 ∧ 70 <= 50 ∧ 6 <= 3).
Proof.
  apply (radar_impacts_vs_score 30 50 3 "Light").
  unfold activity_options. apply list_elem_of_here.
Defined.

(** * The risk matrix *)

Lemma mapM_Ok {A B : Type} (f : A → result B) (g : A → B) (l : list A) :
  (∀ x, x ∈ l → f x = Ok (g x)) → mapM f l = Ok (g <$> l).
Proof.
  induction l as [| x l IH]; intros Hf; [reflexivity |].
  cbn [mapM]. rewrite (Hf x) by apply list_elem_of_here.
  cbn [mbind result_bind].
  rewrite IH by (intros y Hy; apply Hf; by apply list_elem_of_further).
  reflexivity.
Qed.

Lemma heatmap_data_grid (d pts : Z) (a : string) :
  activity_contribution (PStr a) = Ok pts →
  heatmap_data d a = Ok (contributions_grid d pts).
Proof.
  intros Hpts. unfold heatmap_data, contributions_grid.
  apply mapM_Ok. intros t _. apply mapM_Ok. intros h _.
  rewrite calculate_risk_int, Hpts. reflexivity.
Qed.

Lemma contributions_grid_cell (d pts t h : Z) :
  temperature_in_range t → humidity_in_range h →
  marked_cell (contributions_grid d pts) t h
  = Some (temperature_contribution t + humidity_contribution h
          + duration_contribution d + pts).
Proof.
  unfold temperature_in_range, humidity_in_range. intros Ht Hh.
  unfold marked_cell, contributions_grid, temp_range, humidity_range.
  rewrite list_lookup_fmap, lookup_seqZ_lt by lia.
  cbn [fmap option_fmap option_map mbind option_bind].
  rewrite list_lookup_fmap, lookup_seqZ_lt by lia.
  cbn [fmap option_fmap option_map].
  replace (25 + Z.of_nat (Z.to_nat (t - 25))) with t by lia.
  replace (30 + Z.of_nat (Z.to_nat (h - 30))) with h by lia.
  reflexivity.
Qed.

(** X12: for an activity among the three options the matrix is built
    without error and has 26 rows (temperatures 25 to 50) of 61 cells
    (humidities 30 to 90). *)
Theorem heatmap_shape (work_duration : Z) (a : string) :
  a ∈ activity_options →
  ∃ grid,
    heatmap_data work_duration a = Ok grid ∧
    length grid = 26%nat ∧
    Forall (λ row, length row = 61%nat) grid.
Proof.
  intros Ha.
  destruct (activity_contribution_option a Ha) as (pts & Hpts & _).
  exists (contributions_grid work_duration pts).
  split; [by apply heatmap_data_grid |].
  unfold contributions_grid, temp_range, humidity_range.
  split; [by rewrite length_fmap, length_seqZ |].
  apply Forall_fmap, Forall_forall. intros t _. unfold compose.
  by rewrite length_fmap, length_seqZ.
Qed.

Lemma heatmap_shape_witness :
  ∃ grid,
    heatmap_data 4 "Moderate" = Ok grid ∧
    length grid = 26%nat ∧
    Forall (λ row, length row = 61%nat) grid.
Proof.
  apply (heatmap_shape 4 "Moderate").
  unfold activity_options. apply list_elem_of_further, list_elem_of_here.
Defined.

(** X13: the star sits on the assessment's own score: for inputs within
    the declared ranges, the cell of the matrix at row [temperature - 25]
    and column [humidity - 30] holds the score the calculator returned for
    the assessment. *)
Theorem heatmap_marker_is_score (t h d : Z) (a : string) :
  temperature_in_range t → humidity_in_range h → a ∈ activity_options →
  ∃ grid lvl sc,
    heatmap_data d a = Ok grid ∧
    calculate_risk (PInt t) (PInt h) (PInt d) (PStr a) = Ok (lvl, sc) ∧
    marked_cell grid t h = Some sc.
Proof.
  intros Ht Hh Ha.
  destruct (activity_contribution_option a Ha) as (pts & Hpts & _).
  exists (contributions_grid d pts).
  rewrite calculate_risk_int, Hpts. cbn [mbind result_bind].
  eexists _, _. split; [by apply heatmap_data_grid |].
  split; [reflexivity |]. by apply contributions_grid_cell.
Qed.

Lemma heatmap_marker_is_score_witness :
  ∃ grid lvl sc,
    heatmap_data 4 "Moderate" = Ok grid ∧
    calculate_risk (PInt 36) (PInt 60) (PInt 4) (PStr "Moderate") = Ok (lvl, sc) ∧
    marked_cell grid 36 60 = Some sc.
Proof.
  apply (heatmap_marker_is_score 36 60 4 "Moderate").
  - unfold temperature_in_range. lia.
  - unfold humidity_in_range. lia.
  - unfold activity_options. apply list_elem_of_further, list_elem_of_here.
Defined.

(** X14: the matrix never decreases towards higher temperature or higher
    humidity: a cell further down or further right holds a score at least
    as large. *)
Theorem heatmap_monotone (t h t' h' d : Z) (a : string) :
  temperature_in_range t → temperature_in_range t' →
  humidity_in_range h → humidity_in_range h' →
  t <= t' → h <= h' → a ∈ activity_options →
  ∃ grid s s',
    heatmap_data d a = Ok grid ∧
    marked_cell grid t h = Some s ∧
    marked_cell grid t' h' = Some s' ∧
    s <= s'.
Proof.
  intros Ht Ht' Hh Hh' Hle_t Hle_h Ha.
  destruct (activity_contribution_option a Ha) as (pts & Hpts & _).
  exists (contributions_grid d pts). eexists _, _.
  split; [by apply heatmap_data_grid |].
  rewrite !contributions_grid_cell by done.
  split; [reflexivity |]. split; [reflexivity |].
  destruct (contributions_monotone t h d t' h' d) as (? & ? & _); lia.
Qed.

Lemma heatmap_monotone_witness :
  ∃ grid s s',
    heatmap_data 4 "Moderate" = Ok grid ∧
    marked_cell grid 30 40 = Some s ∧
    marked_cell grid 45 85 = Some s' ∧
    s <= s'.
Proof.
  apply (heatmap_monotone 30 40 45 85 4 "Moderate");
    unfold temperature_in_range, humidity_in_range; try lia.
  unfold activity_options. apply list_elem_of_further, list_elem_of_here.
Defined.

(** * Session history *)

Lemma activity_contribution_Ok (a : string) (pts : Z) :
  activity_contribution (PStr a) = Ok pts →
  a ∈ activity_options ∧ 1 <= pts <= 3.
Proof.
  unfold activity_contribution, py_getitem.
  rewrite activity_scores_lookup, activity_options_cases.
  repeat case_decide; try discriminate; intros [= <-]; split; auto; lia.
Qed.

(** What every recorded entry satisfies. *)
Lemma assess_risk_click_entry (now t h d : Z) (a : string)
    (history history' : list history_entry) :
  assess_risk_click now t h d a history = Ok history' →
  ∃ pts,
    activity_contribution (PStr a) = Ok pts ∧
    let s := temperature_contribution t + humidity_contribution h
             + duration_contribution d + pts in
    history' = history ++ [mkEntry now t h d a (level_label (level_of_score s)) s].
Proof.
  unfold assess_risk_click. rewrite calculate_risk_int.
  destruct (activity_contribution (PStr a)) as [pts |]; [| discriminate].
  cbn [mbind result_bind]. intros [= <-]. eauto.
Qed.

Lemma session_invariant (P : history_entry → Prop) (clicks : list click)
    (history : list history_entry) :
  (∀ now t h d a hist hist',
     assess_risk_click now t h d a hist = Ok hist' →
     Forall P hist → Forall P hist') →
  Forall P history → Forall P (session clicks history).
Proof.
  intros Hstep. unfold session.
  revert history. induction clicks as [| c clicks IH]; intros history HP;
    [exact HP |].
  cbn [foldl]. apply IH.
  destruct c as [now t h d a |]; cbn [run_click]; [| constructor].
  destruct (assess_risk_click now t h d a history) eqn:E; [| exact HP].
  by eapply Hstep.
Qed.

(** X15: whatever the sequence of clicks, every entry of the history is a
    genuine result: its activity is one of the three options, its score is
    the sum of the contributions of the recorded inputs and lies between
    1 and 10, and its level is the one that score gives. *)
Theorem history_entries_consistent (clicks : list click) (e : history_entry) :
  e ∈ session clicks [] →
  entry_activity e ∈ activity_options ∧
  (∃ pts,
     activity_contribution (PStr (entry_activity e)) = Ok pts ∧
     entry_risk_score e =
       temperature_contribution (entry_temp e)
       + humidity_contribution (entry_humidity e)
       + duration_contribution (entry_duration e) + pts) ∧
  1 <= entry_risk_score e <= 10 ∧
  entry_risk_level e = level_label (level_of_score (entry_risk_score e)).
Proof.
  revert e. apply Forall_forall.
  apply session_invariant; [| constructor].
  intros now t h d a hist hist' Hclick HP.
  apply assess_risk_click_entry in Hclick as (pts & Hpts & ->).
  apply Forall_app. split; [exact HP |].
  apply Forall_singleton. cbn.
  destruct (activity_contribution_Ok a pts Hpts) as [Ha Hb].
  pose proof (contributions_bounds t h d) as (? & ? & ?).
  repeat split; eauto; lia.
Qed.

Lemma history_entries_consistent_witness :
  let e := mkEntry 0 40 75 6 "Heavy" "High" 10 in
  e ∈ session [AssessRisk 0 40 75 6 "Heavy"] [] ∧
  entry_activity e ∈ activity_options ∧
  (∃ pts,
     activity_contribution (PStr (entry_activity e)) = Ok pts ∧
     entry_risk_score e =
       temperature_contribution (entry_temp e)
       + humidity_contribution (entry_humidity e)
       + duration_contribution (entry_duration e) + pts) ∧
  1 <= entry_risk_score e <= 10 ∧
  entry_risk_level e = level_label (level_of_score (entry_risk_score e)).
Proof.
  intros e. split; [apply list_elem_of_here |].
  apply (history_entries_consistent [AssessRisk 0 40 75 6 "Heavy"] e).
  apply list_elem_of_here.
Defined.

Lemma session_levels (clicks : list click) :
  Forall (λ e, entry_risk_level e
               = level_label (level_of_score (entry_risk_score e)))
    (session clicks []).
Proof.
  apply session_invariant; [| constructor].
  intros now t h d a hist hist' Hclick HP.
  apply assess_risk_click_entry in Hclick as (pts & _ & ->).
  apply Forall_app. split; [exact HP |]. by apply Forall_singleton.
Qed.

(** X16: the "High Risk Events" metric counts exactly the recorded
    assessments whose score is 8 or more, whatever the clicks were. *)
Theorem high_risk_count_is_score_8_up (clicks : list click) :
  high_risk_count (session clicks [])
  = length (filter (λ e, 8 <= entry_risk_score e) (session clicks [])).
Proof.
  pose proof (session_levels clicks) as Hall.
  unfold high_risk_count.
  induction Hall as [| e hist He _ IH]; [reflexivity |].
  assert (Hiff : entry_risk_level e = "High" ↔ 8 <= entry_risk_score e).
  { rewrite He. unfold level_of_score. case_geb; cbn; split; intros;
      first [lia | discriminate | reflexivity]. }
  rewrite !filter_cons.
  repeat case_decide; cbn [length]; first [by rewrite IH | tauto].
Qed.

Lemma session_app (clicks1 clicks2 : list click)
    (history : list history_entry) :
  session (clicks1 ++ clicks2) history
  = session clicks2 (session clicks1 history).
Proof. unfold session. apply foldl_app. Qed.

Lemma session_cons (c : click) (clicks : list click)
    (history : list history_entry) :
  session (c :: clicks) history = session clicks (run_click history c).
Proof. reflexivity. Qed.

Lemma session_assessments (params : list (Z * Z * Z * Z * string))
    (history : list history_entry) :
  length (session ((λ p, AssessRisk p.1.1.1.1 p.1.1.1.2 p.1.1.2 p.1.2 p.2)
                   <$> params) history)
  = (length history
     + length (filter (λ p, p.2 ∈ activity_options) params))%nat.
Proof.
  revert history.
  induction params as [| [[[[now t] h] d] a] params IH]; intros history.
  - cbn. lia.
  - rewrite fmap_cons, session_cons, IH. cbn [run_click fst snd]. rewrite filter_cons. cbn [snd].
    unfold assess_risk_click. rewrite calculate_risk_int.
    destruct (activity_contribution (PStr a)) as [pts | e] eqn:Hpts.
    + apply activity_contribution_Ok in Hpts as [Ha _].
      cbn [mbind result_bind]. rewrite decide_True by done.
      rewrite length_app. cbn [length]. lia.
    + cbn [mbind result_bind]. rewrite decide_False; [lia |].
      intros Ha. destruct (activity_contribution_option a Ha) as (? & Hc & _).
      rewrite Hc in Hpts. discriminate.
Qed.

(** X17: after "Clear History" the page starts afresh: whatever was
    clicked and recorded before, the "Total Assessments" metric after the
    later assess clicks is the number of those clicks whose activity is
    one of the three options (a click that raises records nothing). *)
Theorem total_assessments_after_clear (before : list click)
    (params : list (Z * Z * Z * Z * string)) (history : list history_entry) :
  total_assessments
    (session (before ++ ClearHistory ::
              ((λ p, AssessRisk p.1.1.1.1 p.1.1.1.2 p.1.1.2 p.1.2 p.2)
               <$> params)) history)
  = length (filter (λ p, p.2 ∈ activity_options) params).
Proof.
  rewrite session_app. unfold total_assessments.
  change (session (ClearHistory :: ?l) ?h) with (session l []).
  by rewrite session_assessments.
Qed.

(** X18: assessments only append: as long as "Clear History" is not
    clicked, the entries already recorded stay where they are, unchanged,
    at the front of the history. *)
Theorem history_append_only (clicks : list click)
    (history : list history_entry) :
  ClearHistory ∉ clicks →
  history `prefix_of` session clicks history.
Proof.
  revert history. induction clicks as [| c clicks IH]; intros history Hn.
  - reflexivity.
  - apply not_elem_of_cons in Hn as [Hc Hn].
    rewrite session_cons.
    etrans; [| apply IH; exact Hn].
    destruct c as [now t h d a |]; [| done]. cbn [run_click].
    destruct (assess_risk_click now t h d a history) eqn:E; [| reflexivity].
    apply assess_risk_click_entry in E as (pts & _ & ->).
    by apply prefix_app_r.
Qed.

Lemma history_append_only_witness :
  [mkEntry 0 40 75 6 "Heavy" "High" 10]
  `prefix_of` session [AssessRisk 1 30 50 3 "Light"; AssessRisk 2 30 50 3 "Run"]
                [mkEntry 0 40 75 6 "Heavy" "High" 10].
Proof.
  apply (history_append_only
           [AssessRisk 1 30 50 3 "Light"; AssessRisk 2 30 50 3 "Run"]).
  rewrite !not_elem_of_cons.
  repeat split; [discriminate | discriminate | apply not_elem_of_nil].
Defined.

(** * Tables: reading a column back *)

Lemma column_index_lookup (cols : list string) (c : string) (j : nat) :
  column_index cols c = Some j → cols !! j = Some c.
Proof.
  revert j. induction cols as [| c' cols IH]; intros j; [done |].
  simpl. case_decide as Heq.
  - intros [= <-]. by subst.
  - destruct (column_index cols c) as [k |]; [| done].
    intros [= <-]. simpl. by apply IH.
Qed.

Lemma column_index_elem (cols : list string) (c : string) :
  c ∈ cols → ∃ j, column_index cols c = Some j.
Proof.
  induction cols as [| c' cols IH]; [by intros ?%elem_of_nil |].
  simpl. case_decide; [eauto |].
  intros [? | Hin]%elem_of_cons; [congruence |].
  destruct (IH Hin) as [j ->]. eauto.
Qed.

Lemma column_index_app_new (cols : list string) (c : string) :
  c ∉ cols → column_index (cols ++ [c]) c = Some (length cols).
Proof.
  induction cols as [| c' cols IH]; simpl.
  - intros _. by rewrite decide_True.
  - intros [Hne Hn]%not_elem_of_cons.
    rewrite decide_False by congruence. by rewrite IH.
Qed.

Lemma column_index_app_other (cols : list string) (c c' : string) :
  c' ≠ c → column_index (cols ++ [c]) c' = column_index cols c'.
Proof.
  intros Hne. induction cols as [| c0 cols IH]; simpl.
  - by rewrite decide_False.
  - case_decide; [done |]. by rewrite IH.
Qed.

Lemma df_setitem_rows_length (df : DataFrame) (c : string)
    (series : list (pyval * pyval)) :
  length (rows (df_setitem df c series)) = length (rows df).
Proof.
  unfold df_setitem.
  destruct (column_index (columns df) c); cbn [rows]; apply length_imap.
Qed.

Lemma df_setitem_index (df : DataFrame) (c : string)
    (series : list (pyval * pyval)) :
  index (df_setitem df c series) = index df.
Proof. unfold df_setitem. by destruct (column_index (columns df) c). Qed.

(** Assigning a column keeps every row as long as the column list. *)
Lemma df_setitem_well_formed (df : DataFrame) (c : string)
    (series : list (pyval * pyval)) :
  well_formed df → well_formed (df_setitem df c series).
Proof.
  intros [Hidx Hwf]. split.
  { by rewrite df_setitem_index, df_setitem_rows_length. }
  unfold df_setitem.
  destruct (column_index (columns df) c) as [j |]; cbn [rows columns];
    apply Forall_forall; intros r' (i & r & -> & Hr)%elem_of_lookup_imap_1;
    apply list_elem_of_lookup_2 in Hr;
    pose proof (proj1 (Forall_forall _ _) Hwf r Hr) as Hlen; cbn beta in Hlen.
  - by rewrite length_insert.
  - rewrite !length_app. cbn. lia.
Qed.

(** Reading back the column just assigned gives, under the labels of the
    frame, the values the rows received. *)
Lemma df_getitem_setitem (df : DataFrame) (c : string)
    (series : list (pyval * pyval)) (vs : list pyval) :
  well_formed df → length vs = length (rows df) →
  (∀ i v, vs !! i = Some v →
     default PNaN (index df !! i ≫= series_get series) = v) →
  df_getitem (df_setitem df c series) c = Ok (zip (index df) vs).
Proof.
  intros [_ Hwf] Hlen Hcell. unfold df_setitem, df_getitem.
  destruct (column_index (columns df) c) as [j |] eqn:Hj;
    cbn [rows columns index].
  - rewrite Hj. do 2 f_equal. apply list_eq. intros i.
    rewrite list_lookup_fmap, list_lookup_imap.
    destruct (rows df !! i) as [r |] eqn:Hr; cbn.
    + pose proof (proj1 (Forall_forall _ _) Hwf r
                    (list_elem_of_lookup_2 _ _ _ Hr)) as Hr_len.
      cbn beta in Hr_len.
      apply column_index_lookup, lookup_lt_Some in Hj.
      rewrite list_lookup_insert_eq by lia. cbn.
      apply lookup_lt_Some in Hr.
      destruct (lookup_lt_is_Some_2 vs i) as [v Hv]; [lia |].
      by rewrite Hv, (Hcell i v Hv).
    + symmetry. apply lookup_ge_None. apply lookup_ge_None in Hr. lia.
  - destruct (decide (c ∈ columns df)) as [Hin | Hn].
    { apply column_index_elem in Hin as [j' Hj']. congruence. }
    rewrite column_index_app_new by done. do 2 f_equal.
    apply list_eq. intros i.
    rewrite list_lookup_fmap, list_lookup_imap.
    destruct (rows df !! i) as [r |] eqn:Hr; cbn.
    + pose proof (proj1 (Forall_forall _ _) Hwf r
                    (list_elem_of_lookup_2 _ _ _ Hr)) as Hr_len.
      cbn beta in Hr_len.
      rewrite <- Hr_len, list_lookup_middle by done. cbn.
      apply lookup_lt_Some in Hr.
      destruct (lookup_lt_is_Some_2 vs i) as [v Hv]; [lia |].
      by rewrite Hv, (Hcell i v Hv).
    + symmetry. apply lookup_ge_None. apply lookup_ge_None in Hr. lia.
Qed.

(** Assigning one column leaves every other column as it was. *)
Lemma df_getitem_setitem_other (df : DataFrame) (c c' : string)
    (series : list (pyval * pyval)) :
  well_formed df → c' ≠ c →
  df_getitem (df_setitem df c series) c' = df_getitem df c'.
Proof.
  intros [_ Hwf] Hne. unfold df_setitem, df_getitem.
  destruct (column_index (columns df) c) as [j |] eqn:Hj;
    cbn [rows columns index].
  - destruct (column_index (columns df) c') as [j' |] eqn:Hj'; [| done].
    assert (j ≠ j').
    { intros ->. apply column_index_lookup in Hj, Hj'. congruence. }
    do 2 f_equal. apply list_eq. intros i.
    rewrite !list_lookup_fmap, list_lookup_imap.
    destruct (rows df !! i) as [r |]; cbn; [| done].
    by rewrite list_lookup_insert_ne.
  - rewrite column_index_app_other by done.
    destruct (column_index (columns df) c') as [j' |] eqn:Hj'; [| done].
    do 2 f_equal. apply list_eq. intros i.
    rewrite !list_lookup_fmap, list_lookup_imap.
    destruct (rows df !! i) as [r |] eqn:Hr; cbn; [| done].
    pose proof (proj1 (Forall_forall _ _) Hwf r
                  (list_elem_of_lookup_2 _ _ _ Hr)) as Hr_len.
    cbn beta in Hr_len.
    apply column_index_lookup, lookup_lt_Some in Hj'.
    rewrite lookup_app_l by lia. done.
Qed.

(** * Further properties of batch analysis *)

Lemma required_columns_check (cols : list string) :
  (∀ c, c ∈ required_columns → c ∈ cols) →
  forallb (λ col, bool_decide (col ∈ cols)) required_columns = true.
Proof.
  intros Hall. apply forallb_forall. intros c Hc.
  apply bool_decide_eq_true_2, Hall. by apply list_elem_of_In.
Qed.

(** The result columns of the table handed to the display, for a
    well-formed table under the default row labels. *)
Lemma batch_result_series (df : DataFrame) (rs : list (risk_level * Z)) :
  well_formed df →
  index df = range_index (length (rows df)) →
  length rs = length (rows df) →
  let shown :=
    df_setitem
      (df_setitem df "risk_level"
         (zip (range_index (length rs)) (level_cell <$> rs)))
      "risk_score" (zip (range_index (length rs)) (score_cell <$> rs)) in
  well_formed shown ∧
  index shown = index df ∧
  length (rows shown) = length (rows df) ∧
  df_getitem shown "risk_level" = Ok (zip (index df) (level_cell <$> rs)) ∧
  df_getitem shown "risk_score" = Ok (zip (index df) (score_cell <$> rs)) ∧
  ∀ c, c ≠ "risk_level" → c ≠ "risk_score" →
    df_getitem shown c = df_getitem df c.
Proof.
  intros Hwf Hidx Hlen shown. unfold shown.
  pose proof (df_setitem_well_formed df "risk_level"
                (zip (range_index (length rs)) (level_cell <$> rs)) Hwf)
    as Hwf1.
  split; [by apply df_setitem_well_formed |].
  split; [by rewrite !df_setitem_index |].
  split; [by rewrite !df_setitem_rows_length |].
  split; [| split].
  - rewrite df_getitem_setitem_other by done.
    apply df_getitem_setitem; [done | by rewrite length_fmap |].
    intros i v Hv. apply (aligned_cell _ _ (length rs));
      [by rewrite Hidx, Hlen | by rewrite length_fmap | exact Hv].
  - rewrite <- (df_setitem_index df "risk_level"
                  (zip (range_index (length rs)) (level_cell <$> rs))).
    apply df_getitem_setitem;
      [done | by rewrite length_fmap, df_setitem_rows_length |].
    intros i v Hv. apply (aligned_cell _ _ (length rs));
      [by rewrite df_setitem_index, Hidx, Hlen | by rewrite length_fmap
      | exact Hv].
  - intros c Hc1 Hc2. by rewrite !df_getitem_setitem_other.
Qed.

(** X19: a table that has the four required columns but no row is not
    answered with an empty result: the page raises [KeyError] for
    [risk_level], because the frame built from an empty result list has
    no columns. *)
Theorem batch_without_rows_raises (display : DataFrame → result unit)
    (df : DataFrame) :
  (∀ c, c ∈ required_columns → c ∈ columns df) →
  rows df = [] →
  batch_analysis display df = Raise (KeyError (PStr "risk_level")).
Proof.
  intros Hcols Hrows. unfold batch_analysis.
  rewrite required_columns_check by done. rewrite Hrows. reflexivity.
Qed.

Lemma batch_without_rows_raises_witness :
  batch_analysis display_64_bits empty_df
  = Raise (KeyError (PStr "risk_level")).
Proof.
  apply (batch_without_rows_raises display_64_bits empty_df);
    [| reflexivity].
  intros c Hc. exact Hc.
Defined.

(** X20: one bad row fails the whole batch: when the rows before it are
    valid and the calculator raises on it, the page raises that same
    error, whatever the later rows hold, and shows no table. *)
Theorem batch_first_bad_row_raises (display : DataFrame → result unit)
    (df : DataFrame)
    (before after : list (list pyval)) (bad : list pyval) (e : exn) :
  (∀ c, c ∈ required_columns → c ∈ columns df) →
  rows df = before ++ bad :: after →
  Forall (valid_row (columns df)) before →
  row_risk (columns df) bad = Raise e →
  batch_analysis display df = Raise e.
Proof.
  intros Hcols Hrows Hvalid Hbad. unfold batch_analysis.
  rewrite required_columns_check by done. rewrite Hrows.
  assert (Hm : mapM (assess_row (columns df)) (before ++ bad :: after)
               = Raise e).
  { clear Hrows. induction Hvalid as [| row before Hrow _ IH].
    - cbn [app mapM]. rewrite (assess_row_Raise _ _ _ Hbad). reflexivity.
    - destruct (valid_row_risk _ _ Hrow) as (lvl & sc & Hr).
      rewrite <- app_comm_cons. cbn [mapM].
      rewrite (assess_row_Ok _ _ _ Hr), IH. reflexivity. }
  rewrite Hm. reflexivity.
Qed.

Lemma batch_first_bad_row_raises_witness :
  batch_analysis display_64_bits faulty_df = Raise (KeyError (PStr "Run")).
Proof.
  apply (batch_first_bad_row_raises display_64_bits faulty_df
           [[PInt 35; PInt 60; PInt 4; PStr "Moderate"]]
           [[PInt 28; PInt 50; PInt 3; PStr "Light"]]
           [PInt 40; PInt 75; PInt 6; PStr "Run"]).
  - intros c Hc. exact Hc.
  - reflexivity.
  - apply Forall_cons_2; [| apply Forall_nil_2].
    exists 35, 60, 4, "Moderate". repeat split.
    apply list_elem_of_further, list_elem_of_here.
  - reflexivity.
Defined.



Lemma level_cells_partition (idx : list pyval) (rs : list (risk_level * Z)) :
  length idx = length rs →
  (length (filter (λ p, p.2 = PStr "High") (zip idx (level_cell <$> rs)))
   + length (filter (λ p, p.2 = PStr "Moderate")
               (zip idx (level_cell <$> rs)))
   + length (filter (λ p, p.2 = PStr "Low") (zip idx (level_cell <$> rs))))%nat
  = length rs.
Proof.
  revert idx. induction rs as [| [lvl sc] rs IH]; intros idx Hlen.
  - destruct idx; [reflexivity | discriminate].
  - destruct idx as [| l idx]; [discriminate |].
    injection Hlen as Hlen. specialize (IH idx Hlen).
    rewrite fmap_cons. cbn [zip zip_with]. rewrite !filter_cons. cbn [snd].
    change (level_cell (lvl, sc)) with (PStr (level_label lvl)).
    destruct lvl; cbn [level_label];
      repeat case_decide; try discriminate; try congruence;
      cbn [length]; lia.
Qed.

(** X22: the three metrics of the batch page account for every record:
    for a well-formed table of at least one row under the default row
    labels 0, 1, 2, ..., all rows valid, the High, Moderate and Low
    counts taken from the table handed to the display add up to the
    number of rows. *)
Theorem batch_metrics_add_up (df : DataFrame) :
  well_formed df →
  index df = range_index (length (rows df)) →
  rows df ≠ [] →
  Forall (valid_row (columns df)) (rows df) →
  ∃ df' high moderate low,
    (∀ display,
       batch_analysis display df = (_ ← display df'; Ok (st_dataframe df'))) ∧
    level_metric df' "High" = Ok high ∧
    level_metric df' "Moderate" = Ok moderate ∧
    level_metric df' "Low" = Ok low ∧
    (high + moderate + low)%nat = length (rows df).
Proof.
  intros Hwf Hidx Hne Hvalid.
  destruct (batch_analysis_valid df Hne Hvalid) as (rs & HF & Hrun).
  pose proof (Forall2_length _ _ _ HF) as Hlen. symmetry in Hlen.
  destruct (batch_result_series df rs Hwf Hidx Hlen)
    as (_ & _ & _ & Hcol & _).
  eexists _, _, _, _. split; [exact Hrun |].
  unfold level_metric. rewrite Hcol. cbn [mbind result_bind].
  repeat (split; [reflexivity |]).
  rewrite <- Hlen. apply level_cells_partition.
  destruct Hwf as [Hl _]. by rewrite Hl, Hlen.
Qed.

Lemma batch_metrics_add_up_witness :
  ∃ df' high moderate low,
    (∀ display,
       batch_analysis display sample_df
       = (_ ← display df'; Ok (st_dataframe df'))) ∧
    level_metric df' "High" = Ok high ∧
    level_metric df' "Moderate" = Ok moderate ∧
    level_metric df' "Low" = Ok low ∧
    (high + moderate + low)%nat = length (rows sample_df).
Proof.
  apply (batch_metrics_add_up sample_df).
  - split; [reflexivity |].
    repeat apply Forall_cons_2; try reflexivity. apply Forall_nil_2.
  - reflexivity.
  - discriminate.
  - repeat apply Forall_cons_2; [| | | apply Forall_nil_2].
    + exists 35, 60, 4, "Moderate". repeat split.
      apply list_elem_of_further, list_elem_of_here.
    + exists 40, 75, 6, "Heavy". repeat split.
      apply list_elem_of_further, list_elem_of_further, list_elem_of_here.
    + exists 28, 50, 3, "Light". repeat split. apply list_elem_of_here.
Defined.

Example ai_explain_risk_low :
  ai_explain_risk 28 50 3 "Light" "Low"
  = "✅ LOW RISK

Conditions: 28°C, 50% humidity, 3h duration

Normal safety protocols apply
Maintain regular hydration
Standard work practices acceptable".
Proof. vm_compute. reflexivity. Qed.
